(** * Provisioning graph of the three-runtime Spin backend

    A shallow embedding of the declaration pass performed by
    [backend/component.py] and the three [infrastructure.py] modules
    (datastore, compute, load_balancer).  The Python code builds a tree of
    constructs by calling constructors of the infrastructure library and by
    mutating the objects those constructors return.  Here the tree is an
    explicit store threaded through an error monad: a handle to a construct
    is its path in the tree, a constructor call appends a node, and a
    mutating method rewrites the node its receiver points to.

    The infrastructure library is not part of the repository.  Its
    constructors are modelled as record-building declarations; the points at
    which it may raise are modelled by an oracle [accepts] over the
    operations sent to it, so every statement below holds for every
    behaviour of the provider. *)

From Stdlib Require Import ZArith Ascii DecimalString.
From stdpp Require Import base strings list gmap.

Local Open Scope string_scope.
Local Open Scope Z_scope.

(** ** Values exchanged with the infrastructure library *)

(** A construct is named by its path below the stack, [scope/id]. *)
Definition path := string.

Definition child (scope : path) (id : string) : path :=
  match scope with
  | EmptyString => id
  | _ => scope +:+ "/" +:+ id
  end.

(** Attributes that are only known to the provider ([file_system_id],
    [access_point_id], [load_balancer_dns_name]) are handed to the program
    as opaque placeholder strings naming the construct and the attribute. *)
Definition token (p : path) (attribute : string) : string :=
  "${Token[" +:+ p +:+ "." +:+ attribute +:+ "]}".

(** Python's [str] on an [int], as used by f-strings. *)
Definition str (n : Z) : string := NilZero.string_of_int (Z.to_int n).

Inductive RemovalPolicy := DESTROY | RETAIN | SNAPSHOT.
Inductive SubnetType := PUBLIC | PRIVATE_WITH_EGRESS | PRIVATE_ISOLATED.
Inductive Protocol := TCP | UDP.
Inductive ApplicationProtocol := HTTP | HTTPS.

(** [ec2.Port(protocol, string_representation, from_port, to_port)], and the
    default port of a connectable resource. *)
Inductive PortRange :=
| DefaultPort
| Port (protocol : Protocol) (string_representation : string)
       (from_port to_port : Z).

(** One network authorization: [peer] may open connections to [target]. *)
Record Grant := {
  grant_peer : path;
  grant_target : path;
  grant_port : PortRange;
}.

(** The three shapes of load-balancer target. *)
Inductive Target :=
| InstanceTarget (instance : path)
| ServiceTarget (service : path)
| LambdaTarget (function : path).

Record WeightedTargetGroup := {
  target_group : path;
  weight : Z;
}.

Inductive ListenerAction :=
| weighted_forward (target_groups : list WeightedTargetGroup).

Record AuthorizationConfig := {
  access_point_id : string;
  iam : string;
}.

Record EfsVolumeConfiguration := {
  authorization_config : AuthorizationConfig;
  file_system_id : string;
  transit_encryption : string;
}.

Record Volume := {
  volume_name : string;
  efs_volume_configuration : EfsVolumeConfiguration;
}.

Record MountPoint := {
  container_path : string;
  read_only : bool;
  source_volume : string;
}.

(** [lambda_.FileSystem.from_efs_access_point(ap, mount_path=...)]. *)
Record LambdaFileSystem := {
  fs_access_point : path;
  fs_mount_path : string;
}.

(** ** Nodes of the construct tree *)

Record InstanceNode := {
  instance_type : string;
  machine_image : string;
  instance_vpc : path;
  vpc_subnets : SubnetType;
  role_managed_policies : list string;
  user_data : list string;
}.

Record TaskDefinitionNode := {
  cpu : Z;
  memory_limit_mib : Z;
  task_role_managed_policies : list string;
  volumes : list Volume;
}.

Record ContainerDefinitionNode := {
  container_task_definition : path;
  container_image : string;
  container_environment : gmap string string;
  logging_stream_prefix : string;
  port_mappings : list Z;
  mount_points : list MountPoint;
}.

Record FargateServiceNode := {
  assign_public_ip : bool;
  cluster : path;
  task_definition : path;
}.

Record FunctionNode := {
  allow_public_subnet : bool;
  code : string;
  function_environment : gmap string string;
  filesystem : LambdaFileSystem;
  function_vpc : path;
}.

Record TargetGroupNode := {
  tg_port : option Z;
  tg_protocol : option ApplicationProtocol;
  targets : list Target;
  tg_vpc : option path;
}.

Record ListenerNode := {
  listener_load_balancer : path;
  listener_port : Z;
  listener_actions : list (string * ListenerAction);
}.

Inductive Node :=
| PlainConstruct
| VpcLookup (is_default : bool)
| FileSystem (removal_policy : RemovalPolicy) (vpc : path)
| AccessPoint (file_system : path)
| Instance (i : InstanceNode)
| Cluster (vpc : path)
| FargateTaskDefinition (t : TaskDefinitionNode)
| ContainerDefinition (c : ContainerDefinitionNode)
| FargateService (s : FargateServiceNode)
| DockerImageFunction (f : FunctionNode)
| ApplicationLoadBalancer (internet_facing : bool) (vpc : path)
| ApplicationTargetGroup (g : TargetGroupNode)
| ApplicationListener (l : ListenerNode)
| CfnOutput (value : string).

(** ** The store and the operations sent to the provider *)

(** Every call into the library is recorded, in call order. *)
Inductive Op :=
| OpDeclare (p : path)
| OpMutate (p : path) (method : string)
| OpDepend (dependent dependency : path)
| OpGrant (peer target : path)
| OpOutput (p : path).

Global Instance Op_eq_dec : EqDecision Op.
Proof. solve_decision. Defined.

Record Stack := {
  stack_id : string;
  nodes : list (path * Node);
  dependencies : list (path * path);
  grants : list Grant;
  trace : list Op;
}.

Definition empty_stack (id_ : string) : Stack :=
  {| stack_id := id_; nodes := []; dependencies := []; grants := [];
     trace := [] |}.

Inductive Error :=
| DuplicateId (p : path)
| Rejected (o : Op)
| Unresolved (p : path)
| WrongKind (p : path).

(** The result of running a piece of the program: a value and the new
    store, or the exception raised and the store as it was left. *)
Inductive outcome (A : Type) :=
| Ok (a : A) (s : Stack)
| Raise (e : Error) (s : Stack).
Arguments Ok {A} a s.
Arguments Raise {A} e s.

Definition M (A : Type) : Type := Stack -> outcome A.

Definition ret {A} (a : A) : M A := fun s => Ok a s.

Definition bind {A B} (m : M A) (k : A -> M B) : M B :=
  fun s => match m s with
           | Ok a s' => k a s'
           | Raise e s' => Raise e s'
           end.

Definition raise {A} (e : Error) : M A := fun s => Raise e s.

Declare Scope prog_scope.
Delimit Scope prog_scope with prog.
Notation "'let!' x ':=' y 'in' z" := (bind y (fun x => z))
  (at level 10, x name, y at level 100, z at level 200, only parsing)
  : prog_scope.
Notation "'run!' y 'in' z" := (bind y (fun _ => z))
  (at level 10, y at level 100, z at level 200, only parsing)
  : prog_scope.

Definition state_of {A} (o : outcome A) : Stack :=
  match o with Ok _ s => s | Raise _ s => s end.

Fixpoint lookup_node (p : path) (l : list (path * Node)) : option Node :=
  match l with
  | [] => None
  | (q, n) :: l' => if String.eqb p q then Some n else lookup_node p l'
  end.

Fixpoint replace_node (p : path) (n : Node) (l : list (path * Node))
  : list (path * Node) :=
  match l with
  | [] => []
  | (q, m) :: l' =>
      if String.eqb p q then (q, n) :: l' else (q, m) :: replace_node p n l'
  end.

Definition has_node (p : path) (s : Stack) : bool :=
  match p with
  | EmptyString => true
  | _ => match lookup_node p (nodes s) with Some _ => true | None => false end
  end.

(** The part of the program's surroundings that is not in the repository:
    the [constants] module, the directory of [compute/infrastructure.py],
    and the provider's verdict on each operation. *)
Record constants := {
  APP_NAME : string;
  SPIN_PORT : Z;
}.

Record Env := {
  accepts : nat -> Op -> bool;
  consts : constants;
  module_dir : string;
}.

Section Primitives.
Context (E : Env).

Definition record (o : Op) (s : Stack) : Stack :=
  {| stack_id := stack_id s; nodes := nodes s;
     dependencies := dependencies s; grants := grants s;
     trace := trace s ++ [o] |}.

Definition with_nodes (l : list (path * Node)) (s : Stack) : Stack :=
  {| stack_id := stack_id s; nodes := l;
     dependencies := dependencies s; grants := grants s;
     trace := trace s |}.

(** Submit one operation: the provider, which knows how many operations
    came before it, either accepts it, and it is applied and recorded, or
    rejects it, and the exception leaves the store as it was. *)
Definition submit (o : Op) (apply : Stack -> Stack) : M unit :=
  fun s =>
    if accepts E (length (trace s)) o then Ok tt (record o (apply s))
    else Raise (Rejected o) s.

(** [Kind(scope, id, ...)]: a new construct below [scope]. *)
Definition declare (scope : path) (id : string) (n : Node) : M path :=
  fun s =>
    let p := child scope id in
    if negb (has_node scope s) then Raise (Unresolved scope) s
    else match lookup_node p (nodes s) with
         | Some _ => Raise (DuplicateId p) s
         | None =>
             match submit (OpDeclare p)
                          (fun s => with_nodes (nodes s ++ [(p, n)]) s) s with
             | Ok _ s' => Ok p s'
             | Raise e s' => Raise e s'
             end
         end.

(** [obj.method(...)] where the method changes the object [p] refers to. *)
Definition mutate (p : path) (method : string) (f : Node -> option Node)
  : M unit :=
  fun s =>
    match lookup_node p (nodes s) with
    | None => Raise (Unresolved p) s
    | Some n =>
        match f n with
        | None => Raise (WrongKind p) s
        | Some n' =>
            submit (OpMutate p method)
                   (fun s => with_nodes (replace_node p n' (nodes s)) s) s
        end
    end.

(** [dependent.node.add_dependency(dependency)]. *)
Definition add_dependency (dependent dependency : path) : M unit :=
  fun s =>
    if negb (has_node dependent s) then Raise (Unresolved dependent) s
    else if negb (has_node dependency s) then Raise (Unresolved dependency) s
    else submit (OpDepend dependent dependency)
           (fun s =>
              {| stack_id := stack_id s; nodes := nodes s;
                 dependencies := dependencies s ++ [(dependent, dependency)];
                 grants := grants s; trace := trace s |}) s.

(** A rule letting [peer] connect to [target] on [port]. *)
Definition allow (peer target : path) (port : PortRange) : M unit :=
  fun s =>
    if negb (has_node peer s) then Raise (Unresolved peer) s
    else if negb (has_node target s) then Raise (Unresolved target) s
    else submit (OpGrant peer target)
           (fun s =>
              {| stack_id := stack_id s; nodes := nodes s;
                 dependencies := dependencies s;
                 grants := grants s ++
                   [{| grant_peer := peer; grant_target := target;
                       grant_port := port |}];
                 trace := trace s |}) s.

(** [resource.connections.allow_default_port_from(other)]. *)
Definition allow_default_port_from (resource other : path) : M unit :=
  allow other resource DefaultPort.

(** [resource.connections.allow_to(other, port_range=...)]. *)
Definition allow_to (resource other : path) (port_range : PortRange)
  : M unit :=
  allow resource other port_range.

(** [cdk.CfnOutput(scope, id, value=...)].  An output is a value the stack
    publishes, not a resource the provider creates, so the provider is not
    consulted. *)
Definition output (scope : path) (id : string) (value : string) : M path :=
  fun s =>
    let p := child scope id in
    if negb (has_node scope s) then Raise (Unresolved scope) s
    else match lookup_node p (nodes s) with
         | Some _ => Raise (DuplicateId p) s
         | None =>
             Ok p (record (OpOutput p)
                     (with_nodes (nodes s ++ [(p, CfnOutput value)]) s))
         end.
End Primitives.

Local Open Scope prog_scope.

(** ** backend/datastore/infrastructure.py *)

Module Datastore.
Record self := {
  efs_file_system : path;
  efs_access_point : path;
}.

Section Methods.
Context (E : Env).

Definition __init__ (scope : path) (id_ : string) (vpc : path) : M self :=
  let! this := declare E scope id_ PlainConstruct in
  let! efs_file_system :=
    declare E this "EFSFileSystem" (FileSystem DESTROY vpc) in
  let! efs_access_point :=
    declare E efs_file_system "AccessPoint" (AccessPoint efs_file_system) in
  ret {| efs_file_system := efs_file_system;
         efs_access_point := efs_access_point |}.

Fixpoint allow_connections_from (this : self) (others : list path)
  : M unit :=
  match others with
  | [] => ret tt
  | other :: others' =>
      run! allow_default_port_from E (efs_file_system this) other in
      allow_connections_from this others'
  end.
End Methods.
End Datastore.

(** ** backend/compute/infrastructure.py *)

Module Server.
Record self := {
  ec2_instance : path;
}.

(** [ec2_instance.user_data.add_commands(...)]. *)
Definition add_commands (E : Env) (instance : path) (commands : list string)
  : M unit :=
  mutate E instance "user_data.add_commands"
    (fun n =>
       match n with
       | Instance i =>
           Some (Instance
                   {| instance_type := instance_type i;
                      machine_image := machine_image i;
                      instance_vpc := instance_vpc i;
                      vpc_subnets := vpc_subnets i;
                      role_managed_policies := role_managed_policies i;
                      user_data := user_data i ++ commands |})
       | _ => None
       end).

(** [ec2_instance.role.add_managed_policy(
      iam.ManagedPolicy.from_aws_managed_policy_name(name))]. *)
Definition add_managed_policy (E : Env) (instance : path) (name : string)
  : M unit :=
  mutate E instance "role.add_managed_policy"
    (fun n =>
       match n with
       | Instance i =>
           Some (Instance
                   {| instance_type := instance_type i;
                      machine_image := machine_image i;
                      instance_vpc := instance_vpc i;
                      vpc_subnets := vpc_subnets i;
                      role_managed_policies :=
                        role_managed_policies i ++ [name];
                      user_data := user_data i |})
       | _ => None
       end).

Section Methods.
Context (E : Env).

Definition _add_permissions (this : self) : M unit :=
  run! add_managed_policy E (ec2_instance this)
         "AmazonSSMManagedInstanceCore" in
  add_managed_policy E (ec2_instance this)
    "AmazonElasticFileSystemClientReadWriteAccess".

Definition apt_get_update_and_upgrade_commands : list string :=
  [ "apt-get -y update";
    "apt-get -y upgrade" ].

Definition _apt_get_update_and_upgrade (this : self) : M unit :=
  add_commands E (ec2_instance this) apt_get_update_and_upgrade_commands.

Definition install_efs_utils_commands : list string :=
  [ "apt-get -y install git binutils";
    "git clone https://github.com/aws/efs-utils";
    "cd efs-utils";
    "./build-deb.sh";
    "apt-get -y install ./build/amazon-efs-utils*deb";
    "cd -" ].

Definition _install_efs_utils (this : self) : M unit :=
  add_commands E (ec2_instance this) install_efs_utils_commands.

Definition mount_efs_commands
  (efs_access_point_id efs_file_system_id efs_mount_path : string)
  : list string :=
  [ "mkdir -p " +:+ efs_mount_path;
    "mount -t efs -o tls,accesspoint=" +:+ efs_access_point_id +:+ " "
      +:+ efs_file_system_id +:+ ":/ " +:+ efs_mount_path ].

Definition _mount_efs (this : self)
  (efs_access_point_id efs_file_system_id efs_mount_path : string)
  : M unit :=
  add_commands E (ec2_instance this)
    (mount_efs_commands efs_access_point_id efs_file_system_id
       efs_mount_path).

Definition install_rust_and_wasm_commands : list string :=
  [ "echo Installing Rust / WASM dev toolchain and its requirements...";
    "apt-get -y install build-essential";
    "curl https://sh.rustup.rs -sSf | bash -s -- -y";
    "/root/.cargo/bin/rustup target add wasm32-wasi" ].

Definition _install_rust_and_wasm (this : self) : M unit :=
  add_commands E (ec2_instance this) install_rust_and_wasm_commands.

Definition install_spin_commands : list string :=
  [ "curl -L -O https://github.com/fermyon/spin/releases/download/v0.6.0/spin-v0.6.0-linux-amd64.tar.gz";
    "tar -zxvf spin-v0.6.0-linux-amd64.tar.gz";
    "mv spin /usr/local/bin/spin" ].

Definition _install_spin (this : self) : M unit :=
  add_commands E (ec2_instance this) install_spin_commands.

Definition seed_data_to_efs_commands (efs_mount_path : string)
  : list string :=
  [ "cd " +:+ efs_mount_path;
    "echo Creating and building a small application...";
    "spin templates install --git https://github.com/fermyon/spin";
    "[[ -d spin-hello-world ]] || spin new http-rust spin-hello-world --value project-description='Rust http service' --value http-base=/ --value http-path=/";
    "/root/.cargo/bin/cargo build --manifest-path ./spin-hello-world/Cargo.toml --target wasm32-wasi --release";
    "cd -" ].

Definition _seed_data_to_efs (this : self) (efs_mount_path : string)
  : M unit :=
  add_commands E (ec2_instance this)
    (seed_data_to_efs_commands efs_mount_path).

Definition start_spin_commands (efs_mount_path : string) : list string :=
  [ "echo Launching Spin...";
    "spin up --listen 0.0.0.0:" +:+ str (SPIN_PORT (consts E))
      +:+ " --disable-cache --file " +:+ efs_mount_path
      +:+ "/spin-hello-world/spin.toml" ].

Definition _start_spin (this : self) (efs_mount_path : string) : M unit :=
  add_commands E (ec2_instance this) (start_spin_commands efs_mount_path).

Definition _add_user_data (this : self)
  (efs_access_point_id efs_file_system_id efs_mount_path : string)
  : M unit :=
  run! _apt_get_update_and_upgrade this in
  run! _install_efs_utils this in
  run! _mount_efs this efs_access_point_id efs_file_system_id
         efs_mount_path in
  run! _install_rust_and_wasm this in
  run! _install_spin this in
  run! _seed_data_to_efs this efs_mount_path in
  _start_spin this efs_mount_path.

Definition __init__ (scope : path) (id_ : string)
  (efs_access_point_id efs_file_system_id efs_mount_path : string)
  (vpc : path) : M self :=
  let! this := declare E scope id_ PlainConstruct in
  let! ec2_instance :=
    declare E this "EC2Instance"
      (Instance
         {| instance_type := "t3.micro";
            machine_image :=
              "/aws/service/canonical/ubuntu/server/20.04/stable/current/amd64/hvm/ebs-gp2/ami-id";
            instance_vpc := vpc;
            vpc_subnets := PUBLIC;
            role_managed_policies := [];
            user_data := [] |}) in
  let this := {| ec2_instance := ec2_instance |} in
  run! _add_permissions this in
  run! _add_user_data this efs_access_point_id efs_file_system_id
         efs_mount_path in
  ret this.
End Methods.
End Server.

Module Container.
Record self := {
  ecs_fargate_service : path;
}.

(** [task_definition.task_role.add_managed_policy(...)]. *)
Definition add_managed_policy (E : Env) (task_definition : path)
  (name : string) : M unit :=
  mutate E task_definition "task_role.add_managed_policy"
    (fun n =>
       match n with
       | FargateTaskDefinition t =>
           Some (FargateTaskDefinition
                   {| cpu := cpu t;
                      memory_limit_mib := memory_limit_mib t;
                      task_role_managed_policies :=
                        task_role_managed_policies t ++ [name];
                      volumes := volumes t |})
       | _ => None
       end).

(** [task_definition.add_volume(name=..., efs_volume_configuration=...)]. *)
Definition add_volume (E : Env) (task_definition : path) (v : Volume)
  : M unit :=
  mutate E task_definition "add_volume"
    (fun n =>
       match n with
       | FargateTaskDefinition t =>
           Some (FargateTaskDefinition
                   {| cpu := cpu t;
                      memory_limit_mib := memory_limit_mib t;
                      task_role_managed_policies :=
                        task_role_managed_policies t;
                      volumes := volumes t ++ [v] |})
       | _ => None
       end).

(** [container_definition.add_mount_points(mount_point)]. *)
Definition add_mount_points (E : Env) (container_definition : path)
  (m : MountPoint) : M unit :=
  mutate E container_definition "add_mount_points"
    (fun n =>
       match n with
       | ContainerDefinition c =>
           Some (ContainerDefinition
                   {| container_task_definition :=
                        container_task_definition c;
                      container_image := container_image c;
                      container_environment := container_environment c;
                      logging_stream_prefix := logging_stream_prefix c;
                      port_mappings := port_mappings c;
                      mount_points := mount_points c ++ [m] |})
       | _ => None
       end).

Section Methods.
Context (E : Env).

Definition _add_volume (task_definition : path)
  (efs_access_point_id efs_file_system_id efs_volume_name : string)
  : M unit :=
  let efs_volume_configuration :=
    {| authorization_config :=
         {| access_point_id := efs_access_point_id; iam := "ENABLED" |};
       file_system_id := efs_file_system_id;
       transit_encryption := "ENABLED" |} in
  add_volume E task_definition
    {| volume_name := efs_volume_name;
       efs_volume_configuration := efs_volume_configuration |}.

Definition _add_container (ecs_fargate_task_definition : path)
  (efs_mount_path efs_mount_path_env_var_name efs_volume_name : string)
  : M unit :=
  let! container_definition :=
    declare E ecs_fargate_task_definition "Spin"
      (ContainerDefinition
         {| container_task_definition := ecs_fargate_task_definition;
            container_image := module_dir E +:+ "/runtime";
            container_environment :=
              {[ efs_mount_path_env_var_name := efs_mount_path ]};
            logging_stream_prefix := APP_NAME (consts E);
            port_mappings := [SPIN_PORT (consts E)];
            mount_points := [] |}) in
  let efs_mount_point :=
    {| container_path := efs_mount_path;
       read_only := false;
       source_volume := efs_volume_name |} in
  add_mount_points E container_definition efs_mount_point.

Definition _create_ecs_fargate_task_definition (this : path)
  (efs_access_point_id efs_file_system_id efs_mount_path
     efs_mount_path_env_var_name : string) : M path :=
  let! ecs_fargate_task_definition :=
    declare E this "ECSFargateTaskDefinition"
      (FargateTaskDefinition
         {| cpu := 256;
            memory_limit_mib := 512;
            task_role_managed_policies := [];
            volumes := [] |}) in
  run! add_managed_policy E ecs_fargate_task_definition
         "AmazonElasticFileSystemClientReadWriteAccess" in
  let efs_volume_name := "efs" in
  run! _add_volume ecs_fargate_task_definition efs_access_point_id
         efs_file_system_id efs_volume_name in
  run! _add_container ecs_fargate_task_definition efs_mount_path
         efs_mount_path_env_var_name efs_volume_name in
  ret ecs_fargate_task_definition.

Definition __init__ (scope : path) (id_ : string)
  (efs_access_point_id efs_file_system_id efs_mount_path
     efs_mount_path_env_var_name : string) (vpc : path) : M self :=
  let! this := declare E scope id_ PlainConstruct in
  let! ecs_fargate_task_definition :=
    _create_ecs_fargate_task_definition this efs_access_point_id
      efs_file_system_id efs_mount_path efs_mount_path_env_var_name in
  let! ecs_cluster := declare E this "ECSCluster" (Cluster vpc) in
  let! ecs_fargate_service :=
    declare E this "ECSFargateService"
      (FargateService
         {| assign_public_ip := true;
            cluster := ecs_cluster;
            task_definition := ecs_fargate_task_definition |}) in
  ret {| ecs_fargate_service := ecs_fargate_service |}.
End Methods.
End Container.

Module Function.
Record self := {
  lambda_function : path;
}.

Section Methods.
Context (E : Env).

Definition __init__ (scope : path) (id_ : string)
  (efs_access_point : path)
  (efs_mount_path efs_mount_path_env_var_name : string) (vpc : path)
  : M self :=
  let! this := declare E scope id_ PlainConstruct in
  let! lambda_function :=
    declare E this "LambdaFunction"
      (DockerImageFunction
         {| allow_public_subnet := true;
            code := module_dir E +:+ "/runtime";
            function_environment :=
              {[ efs_mount_path_env_var_name := efs_mount_path ]};
            filesystem :=
              {| fs_access_point := efs_access_point;
                 fs_mount_path := efs_mount_path |};
            function_vpc := vpc |}) in
  ret {| lambda_function := lambda_function |}.
End Methods.
End Function.

Module Compute.
Record self := {
  ec2_instance : path;
  ecs_fargate_service : path;
  lambda_function : path;
}.

Section Methods.
Context (E : Env).

Definition __init__ (scope : path) (id_ : string)
  (efs_access_point : path) (efs_file_system_id : string) (vpc : path)
  : M self :=
  let! this := declare E scope id_ PlainConstruct in
  let efs_mount_path := "/mnt/app" in
  let efs_mount_path_env_var_name := "EFS_MOUNT_PATH" in
  let! server :=
    Server.__init__ E this "Server"
      (token efs_access_point "AccessPointId") efs_file_system_id
      efs_mount_path vpc in
  let ec2_instance := Server.ec2_instance server in
  let! container :=
    Container.__init__ E this "Container"
      (token efs_access_point "AccessPointId") efs_file_system_id
      efs_mount_path efs_mount_path_env_var_name vpc in
  let ecs_fargate_service := Container.ecs_fargate_service container in
  run! add_dependency E ecs_fargate_service ec2_instance in
  let! function :=
    Function.__init__ E this "Function" efs_access_point efs_mount_path
      efs_mount_path_env_var_name vpc in
  let lambda_function := Function.lambda_function function in
  run! add_dependency E lambda_function ec2_instance in
  ret {| ec2_instance := ec2_instance;
         ecs_fargate_service := ecs_fargate_service;
         lambda_function := lambda_function |}.
End Methods.
End Compute.

(** ** backend/load_balancer/infrastructure.py *)

Module LoadBalancer.
(** What the methods see of the object under construction: its own place in
    the tree and the balancer it has created. *)
Record self := {
  this : path;
  _elb_alb : path;
}.

(** The finished object; [endpoint] is the attribute set last. *)
Record object := {
  elb_alb : path;
  endpoint : string;
}.

(** [listener.add_action(id, action=...)]. *)
Definition add_action (E : Env) (listener : path) (id : string)
  (action : ListenerAction) : M unit :=
  mutate E listener "add_action"
    (fun n =>
       match n with
       | ApplicationListener l =>
           Some (ApplicationListener
                   {| listener_load_balancer := listener_load_balancer l;
                      listener_port := listener_port l;
                      listener_actions :=
                        listener_actions l ++ [(id, action)] |})
       | _ => None
       end).

(** [load_balancer.add_listener(id, port=...)]. *)
Definition add_listener (E : Env) (load_balancer : path) (id : string)
  (port : Z) : M path :=
  declare E load_balancer id
    (ApplicationListener
       {| listener_load_balancer := load_balancer;
          listener_port := port;
          listener_actions := [] |}).

Section Methods.
Context (E : Env).

Definition _create_ec2_target_group (self_ : self) (ec2_instance : path)
  (vpc : path) (weight : Z) : M WeightedTargetGroup :=
  run! allow_to E (_elb_alb self_) ec2_instance
         (Port TCP (str (SPIN_PORT (consts E)))
            (SPIN_PORT (consts E)) (SPIN_PORT (consts E))) in
  let! target_group :=
    declare E (this self_) "ELBApplicationTargetGroupEC2Instance"
      (ApplicationTargetGroup
         {| tg_port := Some (SPIN_PORT (consts E));
            tg_protocol := Some HTTP;
            targets := [InstanceTarget ec2_instance];
            tg_vpc := Some vpc |}) in
  let weighted_target_group :=
    {| target_group := target_group; weight := weight |} in
  ret weighted_target_group.

Definition _create_ecs_target_group (self_ : self)
  (ecs_fargate_service : path) (vpc : path) (weight : Z)
  : M WeightedTargetGroup :=
  let! target_group :=
    declare E (this self_) "ELBApplicationTargetGroupECSFargateService"
      (ApplicationTargetGroup
         {| tg_port := Some (SPIN_PORT (consts E));
            tg_protocol := Some HTTP;
            targets := [ServiceTarget ecs_fargate_service];
            tg_vpc := Some vpc |}) in
  let weighted_target_group :=
    {| target_group := target_group; weight := weight |} in
  ret weighted_target_group.

Definition _create_lambda_target_group (self_ : self)
  (lambda_function : path) (weight : Z) : M WeightedTargetGroup :=
  let! target_group :=
    declare E (this self_) "ELBApplicationTargetGroupLambdaFunction"
      (ApplicationTargetGroup
         {| tg_port := None;
            tg_protocol := None;
            targets := [LambdaTarget lambda_function];
            tg_vpc := None |}) in
  let weighted_target_group :=
    {| target_group := target_group; weight := weight |} in
  ret weighted_target_group.

Definition __init__ (scope : path) (id_ : string)
  (ec2_instance ecs_fargate_service lambda_function vpc : path)
  : M object :=
  let! this := declare E scope id_ PlainConstruct in
  let! _elb_alb :=
    declare E this "ELBALB" (ApplicationLoadBalancer true vpc) in
  let self_ := {| this := this; _elb_alb := _elb_alb |} in
  let! ec2_target_group :=
    _create_ec2_target_group self_ ec2_instance vpc 1 in
  let! ecs_target_group :=
    _create_ecs_target_group self_ ecs_fargate_service vpc 1 in
  let! lambda_target_group :=
    _create_lambda_target_group self_ lambda_function 1 in
  let! listener := add_listener E _elb_alb "Listener" 80 in
  run! add_action E listener "Action"
         (weighted_forward
            [ec2_target_group; ecs_target_group; lambda_target_group]) in
  ret {| elb_alb := _elb_alb;
         endpoint := token _elb_alb "DNSName" |}.
End Methods.
End LoadBalancer.

(** ** backend/component.py *)

Module Backend.
Record self := {
  load_balancer_endpoint : path;
}.

Section Methods.
Context (E : Env).

(** The body of [Backend.__init__], run in the stack that
    [super().__init__(scope, id_, **kwargs)] has just created; the stack
    itself is the root scope. *)
Definition body : M self :=
  let this : path := EmptyString in
  let! vpc := declare E this "VPC" (VpcLookup true) in
  let! datastore := Datastore.__init__ E this "Datastore" vpc in
  let! compute :=
    Compute.__init__ E this "Compute"
      (Datastore.efs_access_point datastore)
      (token (Datastore.efs_file_system datastore) "FileSystemId")
      vpc in
  run! Datastore.allow_connections_from E datastore
         [ Compute.ec2_instance compute;
           Compute.ecs_fargate_service compute;
           Compute.lambda_function compute ] in
  let! load_balancer :=
    LoadBalancer.__init__ E this "LoadBalancer"
      (Compute.ec2_instance compute)
      (Compute.ecs_fargate_service compute)
      (Compute.lambda_function compute)
      vpc in
  let! load_balancer_endpoint :=
    output this "LoadBalancerEndpoint"
      (LoadBalancer.endpoint load_balancer) in
  ret {| load_balancer_endpoint := load_balancer_endpoint |}.

Definition __init__ (id_ : string) : outcome self :=
  body (empty_stack id_).
End Methods.
End Backend.

(** ** Reading a stack back *)

(** The nodes of one kind, in declaration order, with their paths. *)
Definition select {A} (f : Node -> option A) (s : Stack) : list (path * A) :=
  omap (fun pn => match f (snd pn) with
                  | Some a => Some (fst pn, a)
                  | None => None
                  end) (nodes s).

Definition file_systems : Stack -> list (path * RemovalPolicy) :=
  select (fun n => match n with FileSystem r _ => Some r | _ => None end).
Definition access_points : Stack -> list (path * path) :=
  select (fun n => match n with AccessPoint fs => Some fs | _ => None end).
Definition instances : Stack -> list (path * InstanceNode) :=
  select (fun n => match n with Instance i => Some i | _ => None end).
Definition task_definitions : Stack -> list (path * TaskDefinitionNode) :=
  select (fun n => match n with FargateTaskDefinition t => Some t
                           | _ => None end).
Definition container_definitions
  : Stack -> list (path * ContainerDefinitionNode) :=
  select (fun n => match n with ContainerDefinition c => Some c
                           | _ => None end).
Definition services : Stack -> list (path * FargateServiceNode) :=
  select (fun n => match n with FargateService v => Some v | _ => None end).
Definition functions : Stack -> list (path * FunctionNode) :=
  select (fun n => match n with DockerImageFunction f => Some f
                           | _ => None end).
Definition load_balancers : Stack -> list (path * bool) :=
  select (fun n => match n with ApplicationLoadBalancer b _ => Some b
                           | _ => None end).
Definition target_groups : Stack -> list (path * TargetGroupNode) :=
  select (fun n => match n with ApplicationTargetGroup g => Some g
                           | _ => None end).
Definition listeners : Stack -> list (path * ListenerNode) :=
  select (fun n => match n with ApplicationListener l => Some l
                           | _ => None end).
Definition outputs : Stack -> list (path * string) :=
  select (fun n => match n with CfnOutput v => Some v | _ => None end).

(** The value published under the orchestrator's output name. *)
Definition public_endpoint (s : Stack) : option string :=
  snd <$> List.find (fun pv => String.eqb (fst pv) "LoadBalancerEndpoint")
            (outputs s).

(** The weighted target groups of every forward rule installed on a
    listener. *)
Definition rule_targets (s : Stack) : list WeightedTargetGroup :=
  concat (map (fun pl =>
                 concat (map (fun ia => match snd ia with
                                        | weighted_forward gs => gs
                                        end)
                             (listener_actions (snd pl))))
              (listeners s)).

Definition rule_weights (s : Stack) : list Z := map weight (rule_targets s).

Definition nonempty {A} (l : list A) : bool :=
  match l with [] => false | _ => true end.

(** What the deployment has to have created before it can answer. *)
Definition storage_created (s : Stack) : bool :=
  nonempty (file_systems s) && nonempty (access_points s).
Definition workers_created (s : Stack) : bool :=
  nonempty (instances s) && nonempty (services s) && nonempty (functions s).
Definition target_groups_created (s : Stack) : bool :=
  Nat.eqb (length (target_groups s)) 3.
Definition listener_rule_created (s : Stack) : bool :=
  nonempty (rule_targets s).
Definition all_created (s : Stack) : bool :=
  storage_created s && workers_created s && target_groups_created s
  && listener_rule_created s.

(** The grants that open a resource to its peers. *)
Definition grants_to (target : path) (s : Stack) : list Grant :=
  List.filter (fun g => String.eqb (grant_target g) target) (grants s).

Definition default_port_grant (target peer : path) : Grant :=
  {| grant_peer := peer; grant_target := target; grant_port := DefaultPort |}.

(** The environment mapping a worker's runtime is started with.  A
    function carries its own; a service runs the containers of its task
    definition, each of which carries one; [ec2.Instance] is declared
    without any. *)
Definition worker_environment (s : Stack) (n : Node)
  : option (gmap string string) :=
  match n with
  | DockerImageFunction f => Some (function_environment f)
  | FargateService v =>
      Some (foldr
              (fun pc env =>
                 if String.eqb (container_task_definition (snd pc))
                      (task_definition v)
                 then container_environment (snd pc) ∪ env
                 else env)
              ∅ (container_definitions s))
  | _ => None
  end.

Definition is_worker (n : Node) : bool :=
  match n with
  | Instance _ | FargateService _ | DockerImageFunction _ => true
  | _ => false
  end.

(** [mentions needle hay]: [needle] occurs somewhere in [hay]. *)
Fixpoint mentions (needle hay : string) : bool :=
  String.prefix needle hay
  || match hay with
     | EmptyString => false
     | String _ hay' => mentions needle hay'
     end.

Fixpoint has_char (c : ascii) (s : string) : bool :=
  match s with
  | EmptyString => false
  | String a s' => Ascii.eqb c a || has_char c s'
  end.

(** ** The shell's view of the seed command

    The bootstrap commands are strings to the program; the fourth command of
    the seed step is read here as the shell reads it, [test || command]:
    the right-hand side runs only when the left-hand side fails. *)
Module Shell.
Inductive command :=
| test_d (dir : string)
| spin_new (template name : string) (values : list (string * string))
| or_else (c1 c2 : command).

Fixpoint render (c : command) : string :=
  match c with
  | test_d dir => "[[ -d " +:+ dir +:+ " ]]"
  | spin_new template name values =>
      "spin new " +:+ template +:+ " " +:+ name
      +:+ String.concat EmptyString
            (map (fun kv => " --value " +:+ fst kv +:+ "=" +:+ snd kv)
               values)
  | or_else c1 c2 => render c1 +:+ " || " +:+ render c2
  end.

(** The directories below the working directory, with their contents. *)
Definition directories := gmap string string.

Section Exec.
(** What [spin new] does is left open: it may fail, overwrite or
    refuse. *)
Context (run_spin_new :
           string -> string -> list (string * string) ->
           directories -> bool * directories).

Fixpoint exec (c : command) (d : directories) : bool * directories :=
  match c with
  | test_d dir => (bool_decide (is_Some (d !! dir)), d)
  | spin_new template name values =>
      run_spin_new template name values d
  | or_else c1 c2 =>
      let r := exec c1 d in
      if fst r then r else exec c2 (snd r)
  end.
End Exec.

Definition create_scaffold : command :=
  or_else (test_d "spin-hello-world")
    (spin_new "http-rust" "spin-hello-world"
       [ ("project-description", "'Rust http service'");
         ("http-base", "/");
         ("http-path", "/") ]).
End Shell.

(** ** The steps of the orchestrator *)

Inductive Step :=
| ResolveNetwork
| CreateStorage
| CreateCompute
| AuthorizeStorage
| CreateSplitter
| SurfaceEndpoint.

Definition step_index (k : Step) : nat :=
  match k with
  | ResolveNetwork => 0
  | CreateStorage => 1
  | CreateCompute => 2
  | AuthorizeStorage => 3
  | CreateSplitter => 4
  | SurfaceEndpoint => 5
  end.

(** The component a construct belongs to is the first segment of its path. *)
Fixpoint head_segment (p : string) : string :=
  match p with
  | EmptyString => EmptyString
  | String c p' =>
      if Ascii.eqb c "/"%char then EmptyString else String c (head_segment p')
  end.

Definition component_step (p : path) : Step :=
  if String.eqb (head_segment p) "VPC" then ResolveNetwork
  else if String.eqb (head_segment p) "Datastore" then CreateStorage
  else if String.eqb (head_segment p) "Compute" then CreateCompute
  else if String.eqb (head_segment p) "LoadBalancer" then CreateSplitter
  else SurfaceEndpoint.

(** The step an operation belongs to: the component whose object it
    declares or changes; a grant belongs to the component whose
    [connections] it is made on, the storage for a grant onto the file
    system and the splitter for a grant from the balancer. *)
Definition step_of (o : Op) : Step :=
  match o with
  | OpDeclare p => component_step p
  | OpMutate p _ => component_step p
  | OpDepend a _ => component_step a
  | OpGrant peer target =>
      match component_step target with
      | CreateStorage => AuthorizeStorage
      | _ => component_step peer
      end
  | OpOutput _ => SurfaceEndpoint
  end.

Fixpoint nondecreasing (l : list nat) : bool :=
  match l with
  | [] => true
  | x :: l' =>
      match l' with
      | [] => true
      | y :: _ => Nat.leb x y && nondecreasing l'
      end
  end.

(** Steps never interleave: once an operation of a later step has been
    sent, no operation of an earlier step follows. *)
Definition in_step_order (t : list Op) : bool :=
  nondecreasing (map (fun o => step_index (step_of o)) t).

Global Instance Step_eq_dec : EqDecision Step.
Proof. solve_decision. Defined.

Definition steps_taken (t : list Op) : list Step :=
  remove_dups (map step_of t).

(** ** The deployment when the provider accepts everything *)

Definition env_all (c : constants) (dir : string) : Env :=
  {| accepts := fun _ _ => true; consts := c; module_dir := dir |}.

Definition final (c : constants) (dir id_ : string) : Stack :=
  state_of (Backend.__init__ (env_all c dir) id_).

Definition test_env : Env :=
  env_all {| APP_NAME := "spin"; SPIN_PORT := 3000 |} "/app/backend/compute".


(** ** The declared dependency graph *)

(** [depends_on s a b]: node [a] was declared to depend on node [b]. *)
Definition depends_on (s : Stack) (a b : path) : Prop :=
  (a, b) ∈ dependencies s.

(** [requires s a b]: [a] depends on [b] through a chain of declarations. *)
Definition requires (s : Stack) : path -> path -> Prop := tc (depends_on s).

Definition precedes (order : list path) (x y : path) : Prop :=
  exists i j : nat, order !! i = Some x /\ order !! j = Some y /\ (i < j)%nat.

(** An order in which a provider may create the nodes: every node comes
    after the nodes it was declared to depend on. *)
Definition provisioning_order (s : Stack) (order : list path) : Prop :=
  forall a b, depends_on s a b -> precedes order b a.

Definition known (s : Stack) (p : path) : Prop :=
  is_Some (lookup_node p (nodes s)).

(** The operations of a deployment in which nothing is rejected. *)
Definition deployment_trace : list Op :=
  Eval vm_compute in
    trace (final {| APP_NAME := EmptyString; SPIN_PORT := 0 |}
             EmptyString EmptyString).

(** What holds of the store an exception leaves behind. *)
Definition interrupted (s : Stack) : bool :=
  negb (all_created s)
  && negb (nonempty (outputs s))
  && in_step_order (trace s)
  && bool_decide (trace s `prefix_of` deployment_trace).

(** ** Particular environments and stores *)

(** An environment whose provider rejects the listener rule. *)
Definition env_no_rule : Env :=
  {| accepts := fun _ o =>
       negb (bool_decide
               (o = OpMutate "LoadBalancer/ELBALB/Listener" "add_action"));
     consts := consts test_env;
     module_dir := module_dir test_env |}.

(** A store in which the balancer exists and its target groups do not. *)
Definition before_target_groups : Stack :=
  state_of
    (Backend.__init__
       {| accepts := fun n _ => Nat.ltb n 33;
          consts := consts test_env;
          module_dir := module_dir test_env |} "Backend").

(** A [spin new] that writes a fresh scaffold over whatever is there. *)
Definition overwriting_spin_new (template name : string)
  (values : list (string * string)) (d : Shell.directories)
  : bool * Shell.directories :=
  (true, <[name := "fresh " +:+ template]> d).

(** Every worker of the stack has an environment mapping that binds
    [EFS_MOUNT_PATH] to the mount path. *)
Definition every_worker_carries_mount_path (s : Stack) : Prop :=
  forall p n,
    lookup_node p (nodes s) = Some n ->
    is_worker n = true ->
    exists env,
      worker_environment s n = Some env
      /\ env !! "EFS_MOUNT_PATH" = Some "/mnt/app".

(** ** Frames and updates *)

(** [s'] agrees with [s] on every path but [p]. *)
Definition same_elsewhere (p : path) (s s' : Stack) : Prop :=
  forall q, q <> p -> lookup_node q (nodes s') = lookup_node q (nodes s).

(** Every node of [s] is still there, unchanged, in [s']. *)
Definition keeps_nodes (s s' : Stack) : Prop :=
  forall q n, lookup_node q (nodes s) = Some n ->
              lookup_node q (nodes s') = Some n.

(** An instance with its role's policies and its commands replaced. *)
Definition instance_with (i : InstanceNode) (policies commands : list string)
  : InstanceNode :=
  {| instance_type := instance_type i;
     machine_image := machine_image i;
     instance_vpc := instance_vpc i;
     vpc_subnets := vpc_subnets i;
     role_managed_policies := policies;
     user_data := commands |}.

(** The commands [_add_user_data] adds, in the order it adds them. *)
Definition bootstrap_commands (E : Env)
  (efs_access_point_id efs_file_system_id efs_mount_path : string)
  : list string :=
  Server.apt_get_update_and_upgrade_commands
  ++ Server.install_efs_utils_commands
  ++ Server.mount_efs_commands efs_access_point_id efs_file_system_id
       efs_mount_path
  ++ Server.install_rust_and_wasm_commands
  ++ Server.install_spin_commands
  ++ Server.seed_data_to_efs_commands efs_mount_path
  ++ Server.start_spin_commands E efs_mount_path.

(** The policies [_add_permissions] adds, in the order it adds them. *)
Definition instance_policies : list string :=
  [ "AmazonSSMManagedInstanceCore";
    "AmazonElasticFileSystemClientReadWriteAccess" ].

(** [s'] has the nodes of [s], unchanged and in their order, and after
    them the nodes [new], whose paths are new to [s] and differ from one
    another. *)
Definition extends_by (s s' : Stack) (new : list (path * Node)) : Prop :=
  nodes s' = (nodes s ++ new)%list
  /\ NoDup (map fst new)
  /\ forall q, q ∈ map fst new -> lookup_node q (nodes s) = None.

(** ** What each constructor adds to a store *)

Definition server_nodes (E : Env) (scope : path) (id_ : string)
  (ap fs mp : string) (vpc : path) : list (path * Node) :=
  [ (child scope id_, PlainConstruct);
    (child (child scope id_) "EC2Instance",
     Instance
       {| instance_type := "t3.micro";
          machine_image :=
            "/aws/service/canonical/ubuntu/server/20.04/stable/current/amd64/hvm/ebs-gp2/ami-id";
          instance_vpc := vpc;
          vpc_subnets := PUBLIC;
          role_managed_policies := instance_policies;
          user_data := bootstrap_commands E ap fs mp |}) ].

Definition container_nodes (E : Env) (scope : path) (id_ : string)
  (ap fs mp var : string) (vpc : path) : list (path * Node) :=
  let this := child scope id_ in
  let td := child this "ECSFargateTaskDefinition" in
  [ (this, PlainConstruct);
    (td,
     FargateTaskDefinition
       {| cpu := 256;
          memory_limit_mib := 512;
          task_role_managed_policies :=
            ["AmazonElasticFileSystemClientReadWriteAccess"];
          volumes :=
            [ {| volume_name := "efs";
                 efs_volume_configuration :=
                   {| authorization_config :=
                        {| access_point_id := ap; iam := "ENABLED" |};
                      file_system_id := fs;
                      transit_encryption := "ENABLED" |} |} ] |});
    (child td "Spin",
     ContainerDefinition
       {| container_task_definition := td;
          container_image := module_dir E +:+ "/runtime";
          container_environment := {[ var := mp ]};
          logging_stream_prefix := APP_NAME (consts E);
          port_mappings := [SPIN_PORT (consts E)];
          mount_points :=
            [ {| container_path := mp;
                 read_only := false;
                 source_volume := "efs" |} ] |});
    (child this "ECSCluster", Cluster vpc);
    (child this "ECSFargateService",
     FargateService
       {| assign_public_ip := true;
          cluster := child this "ECSCluster";
          task_definition := td |}) ].

Definition function_nodes (E : Env) (scope : path) (id_ : string)
  (ap : path) (mp var : string) (vpc : path) : list (path * Node) :=
  [ (child scope id_, PlainConstruct);
    (child (child scope id_) "LambdaFunction",
     DockerImageFunction
       {| allow_public_subnet := true;
          code := module_dir E +:+ "/runtime";
          function_environment := {[ var := mp ]};
          filesystem := {| fs_access_point := ap; fs_mount_path := mp |};
          function_vpc := vpc |}) ].

Definition datastore_nodes (scope : path) (id_ : string) (vpc : path)
  : list (path * Node) :=
  let fs := child (child scope id_) "EFSFileSystem" in
  [ (child scope id_, PlainConstruct);
    (fs, FileSystem DESTROY vpc);
    (child fs "AccessPoint", AccessPoint fs) ].

Definition compute_nodes (E : Env) (scope : path) (id_ : string)
  (efs_access_point : path) (efs_file_system_id : string) (vpc : path)
  : list (path * Node) :=
  let this := child scope id_ in
  [(this, PlainConstruct)]
  ++ server_nodes E this "Server" (token efs_access_point "AccessPointId")
       efs_file_system_id "/mnt/app" vpc
  ++ container_nodes E this "Container"
       (token efs_access_point "AccessPointId") efs_file_system_id
       "/mnt/app" "EFS_MOUNT_PATH" vpc
  ++ function_nodes E this "Function" efs_access_point "/mnt/app"
       "EFS_MOUNT_PATH" vpc.

Definition load_balancer_nodes (E : Env) (scope : path) (id_ : string)
  (ec2_instance ecs_fargate_service lambda_function vpc : path)
  : list (path * Node) :=
  let this := child scope id_ in
  let alb := child this "ELBALB" in
  let g1 := child this "ELBApplicationTargetGroupEC2Instance" in
  let g2 := child this "ELBApplicationTargetGroupECSFargateService" in
  let g3 := child this "ELBApplicationTargetGroupLambdaFunction" in
  [ (this, PlainConstruct);
    (alb, ApplicationLoadBalancer true vpc);
    (g1, ApplicationTargetGroup
           {| tg_port := Some (SPIN_PORT (consts E));
              tg_protocol := Some HTTP;
              targets := [InstanceTarget ec2_instance];
              tg_vpc := Some vpc |});
    (g2, ApplicationTargetGroup
           {| tg_port := Some (SPIN_PORT (consts E));
              tg_protocol := Some HTTP;
              targets := [ServiceTarget ecs_fargate_service];
              tg_vpc := Some vpc |});
    (g3, ApplicationTargetGroup
           {| tg_port := None;
              tg_protocol := None;
              targets := [LambdaTarget lambda_function];
              tg_vpc := None |});
    (child alb "Listener",
     ApplicationListener
       {| listener_load_balancer := alb;
          listener_port := 80;
          listener_actions :=
            [ ("Action",
               weighted_forward
                 [ {| target_group := g1; weight := 1 |};
                   {| target_group := g2; weight := 1 |};
                   {| target_group := g3; weight := 1 |} ]) ] |}) ].

(** A stack holding one VM worker, and stacks of a deployment stopped just
    before the storage is opened to the workers. *)
Definition server_store : Stack :=
  state_of (Server.__init__ test_env EmptyString "Server" "ap-1" "fs-1"
              "/mnt/app" "VPC" (empty_stack "Backend")).

Definition before_authorization : Stack :=
  state_of
    (Backend.__init__
       {| accepts := fun n _ => Nat.ltb n 28;
          consts := consts test_env;
          module_dir := module_dir test_env |} "Backend").

(** A provider that refuses to open the storage to the function worker. *)
Definition env_no_function_grant : Env :=
  {| accepts := fun _ o =>
       negb (bool_decide
               (o = OpGrant "Compute/Function/LambdaFunction"
                      "Datastore/EFSFileSystem"));
     consts := consts test_env;
     module_dir := module_dir test_env |}.

(** A stack holding one instance that has neither policies nor commands. *)
Definition bare_instance_store : Stack :=
  state_of
    (declare test_env EmptyString "EC2Instance"
       (Instance
          {| instance_type := "t3.micro";
             machine_image := "ami";
             instance_vpc := "VPC";
             vpc_subnets := PUBLIC;
             role_managed_policies := [];
             user_data := [] |})
       (empty_stack "Backend")).

(** * Reasoning about runs *)

(** ** Runs from an arbitrary store *)

Definition grows (s s' : Stack) : Prop := forall p, known s p -> known s' p.

(** A run that may add and change nodes but declares no dependency. *)
Definition quiet (s s' : Stack) : Prop :=
  grows s s' /\ dependencies s' = dependencies s.

Definition silent {A} (m : M A) : Prop :=
  forall s a s', m s = Ok a s' -> quiet s s'.

(** A run that adds the node it returns a handle to. *)
Definition creates {A} (m : M A) (handle : A -> path) : Prop :=
  forall s a s',
    m s = Ok a s' ->
    quiet s s' /\ ~ known s (handle a) /\ known s' (handle a).

Lemma quiet_refl s : quiet s s.
Proof. split; [intros p Hp; exact Hp | reflexivity]. Qed.

Lemma quiet_trans s1 s2 s3 : quiet s1 s2 -> quiet s2 s3 -> quiet s1 s3.
Proof.
  intros [G1 D1] [G2 D2]. split.
  - intros p Hp. apply G2, G1, Hp.
  - rewrite D2. exact D1.
Qed.

Lemma bind_Ok {A B} (m : M A) (k : A -> M B) s b s' :
  bind m k s = Ok b s' -> exists a s1, m s = Ok a s1 /\ k a s1 = Ok b s'.
Proof.
  unfold bind. destruct (m s) as [a s1|e s1]; [|discriminate].
  intros H. exists a, s1. split; [reflexivity | exact H].
Qed.

Lemma ret_Ok {A} (a b : A) s s' : ret a s = Ok b s' -> b = a /\ s' = s.
Proof. unfold ret. intros H. injection H as -> ->. split; reflexivity. Qed.

Lemma submit_Ok E o f s u s' :
  submit E o f s = Ok u s' -> s' = record o (f s).
Proof.
  unfold submit. destruct (accepts E _ o); [|discriminate].
  intros H. injection H as _ <-. reflexivity.
Qed.

Lemma lookup_node_app p l q n :
  lookup_node p (l ++ [(q, n)]) =
  match lookup_node p l with
  | Some m => Some m
  | None => if String.eqb p q then Some n else None
  end.
Proof.
  induction l as [|[q' m] l IH]; simpl.
  - reflexivity.
  - destruct (String.eqb p q'); [reflexivity | exact IH].
Qed.

Lemma lookup_replace_node p q n l :
  is_Some (lookup_node p (replace_node q n l)) <->
  is_Some (lookup_node p l).
Proof.
  induction l as [|[q' m] l IH]; simpl.
  - reflexivity.
  - destruct (String.eqb q q') eqn:Hq; simpl.
    + destruct (String.eqb p q'); [|reflexivity].
      split; intros _; eexists; reflexivity.
    + destruct (String.eqb p q'); [reflexivity | exact IH].
Qed.

Lemma declare_Ok E scope id n s p s' :
  declare E scope id n s = Ok p s' ->
  p = child scope id /\ ~ known s p /\ known s' p /\ quiet s s'.
Proof.
  unfold declare. destruct (negb (has_node scope s)); [discriminate|].
  destruct (lookup_node (child scope id) (nodes s)) eqn:Hfresh;
    [discriminate|].
  destruct (submit _ _ _ s) as [u s1|e s1] eqn:Hs; [|discriminate].
  intros H. injection H as <- <-. apply submit_Ok in Hs. subst s1.
  unfold known, quiet, grows; simpl. rewrite Hfresh.
  split; [reflexivity|].
  split; [intros [x Hx]; discriminate|].
  split.
  - rewrite lookup_node_app, Hfresh, String.eqb_refl. eexists; reflexivity.
  - split; [|reflexivity].
    intros q [x Hx]. unfold known; simpl.
    rewrite lookup_node_app, Hx. eexists; reflexivity.
Qed.

Lemma mutate_silent E p method f : silent (mutate E p method f).
Proof.
  intros s u s'. unfold mutate.
  destruct (lookup_node p (nodes s)) as [n|]; [|discriminate].
  destruct (f n) as [n'|]; [|discriminate].
  intros H. apply submit_Ok in H. subst s'.
  split; [|reflexivity].
  intros q Hq. unfold known; simpl. apply lookup_replace_node. exact Hq.
Qed.

Lemma add_dependency_Ok E a b s u s' :
  add_dependency E a b s = Ok u s' ->
  grows s s' /\ dependencies s' = (dependencies s ++ [(a, b)])%list.
Proof.
  unfold add_dependency.
  destruct (negb (has_node a s)); [discriminate|].
  destruct (negb (has_node b s)); [discriminate|].
  intros H. apply submit_Ok in H. subst s'.
  split; [intros q Hq; exact Hq | reflexivity].
Qed.

Lemma silent_ret {A} (a : A) : silent (ret a).
Proof. intros s b s' H. apply ret_Ok in H as [_ ->]. apply quiet_refl. Qed.

Lemma silent_bind {A B} (m : M A) (k : A -> M B) :
  silent m -> (forall a, silent (k a)) -> silent (bind m k).
Proof.
  intros Hm Hk s b s' H. apply bind_Ok in H as (a & s1 & H1 & H2).
  eapply quiet_trans; [eapply Hm, H1 | eapply Hk, H2].
Qed.

Lemma silent_declare E scope id n : silent (declare E scope id n).
Proof. intros s p s' H. apply declare_Ok in H. tauto. Qed.

Create HintDb silent_db.
#[local] Hint Resolve silent_ret silent_declare mutate_silent : silent_db.

Ltac silence :=
  repeat first
    [ apply silent_bind; [|intros ?]
    | solve [auto with silent_db] ].

Lemma Server_add_permissions_silent E this :
  silent (Server._add_permissions E this).
Proof.
  unfold Server._add_permissions, Server.add_managed_policy. silence.
Qed.

Lemma Server_add_user_data_silent E this ap fs mp :
  silent (Server._add_user_data E this ap fs mp).
Proof.
  unfold Server._add_user_data, Server._apt_get_update_and_upgrade,
    Server._install_efs_utils, Server._mount_efs,
    Server._install_rust_and_wasm, Server._install_spin,
    Server._seed_data_to_efs, Server._start_spin, Server.add_commands.
  silence.
Qed.

Lemma Container_task_definition_silent E this ap fs mp var :
  silent (Container._create_ecs_fargate_task_definition E this ap fs mp var).
Proof.
  unfold Container._create_ecs_fargate_task_definition,
    Container._add_volume, Container._add_container,
    Container.add_managed_policy, Container.add_volume,
    Container.add_mount_points.
  silence.
Qed.

(** A construct that declares itself, works quietly, declares the node it
    exposes and returns a handle to it once more quiet work is done. *)
Lemma creates_after {A B} (m : M A) (k : A -> M B) handle :
  silent m -> (forall a, creates (k a) handle) -> creates (bind m k) handle.
Proof.
  intros Hm Hk s b s' H. apply bind_Ok in H as (a & s1 & H1 & H2).
  apply Hm in H1. apply Hk in H2 as (Q & Hfresh & Hknown).
  split; [eapply quiet_trans; eassumption|].
  split; [|exact Hknown].
  intros Hp. apply Hfresh, H1, Hp.
Qed.

Lemma creates_declare {B} E scope id n (k : path -> M B) handle :
  (forall p, silent (k p)) ->
  (forall p s b s', k p s = Ok b s' -> handle b = p) ->
  creates (bind (declare E scope id n) k) handle.
Proof.
  intros Hk Hh s b s' H. apply bind_Ok in H as (p & s1 & H1 & H2).
  apply declare_Ok in H1 as (_ & Hfresh & Hknown & Q1).
  pose proof (Hk _ _ _ _ H2) as Q2. rewrite (Hh _ _ _ _ H2).
  split; [eapply quiet_trans; eassumption|].
  split; [exact Hfresh | apply Q2, Hknown].
Qed.

Lemma Server_creates E scope id_ ap fs mp vpc :
  creates (Server.__init__ E scope id_ ap fs mp vpc) Server.ec2_instance.
Proof.
  unfold Server.__init__.
  apply creates_after; [auto with silent_db | intros this].
  apply creates_declare.
  - intros p. apply silent_bind; [apply Server_add_permissions_silent|].
    intros _. apply silent_bind; [apply Server_add_user_data_silent|].
    intros _. apply silent_ret.
  - intros p s b s' H.
    apply bind_Ok in H as (? & ? & _ & H).
    apply bind_Ok in H as (? & ? & _ & H).
    apply ret_Ok in H as [-> _]. reflexivity.
Qed.

Lemma Container_creates E scope id_ ap fs mp var vpc :
  creates (Container.__init__ E scope id_ ap fs mp var vpc)
    Container.ecs_fargate_service.
Proof.
  unfold Container.__init__.
  apply creates_after; [auto with silent_db | intros this].
  apply creates_after; [apply Container_task_definition_silent | intros td].
  apply creates_after; [auto with silent_db | intros ecs_cluster].
  apply creates_declare.
  - intros p. apply silent_ret.
  - intros p s b s' H. apply ret_Ok in H as [-> _]. reflexivity.
Qed.

Lemma Function_creates E scope id_ ap mp var vpc :
  creates (Function.__init__ E scope id_ ap mp var vpc)
    Function.lambda_function.
Proof.
  unfold Function.__init__.
  apply creates_after; [auto with silent_db | intros this].
  apply creates_declare.
  - intros p. apply silent_ret.
  - intros p s b s' H. apply ret_Ok in H as [-> _]. reflexivity.
Qed.

(** What [Compute.__init__] leaves behind, from any store: three fresh,
    distinct worker nodes and exactly two more declared dependencies. *)
Lemma Compute_run E scope id_ ap fsid vpc s0 c s1 :
  Compute.__init__ E scope id_ ap fsid vpc s0 = Ok c s1 ->
  let vm := Compute.ec2_instance c in
  let svc := Compute.ecs_fargate_service c in
  let fn := Compute.lambda_function c in
  dependencies s1 = (dependencies s0 ++ [(svc, vm); (fn, vm)])%list
  /\ ~ known s0 vm /\ ~ known s0 svc /\ ~ known s0 fn
  /\ vm <> svc /\ vm <> fn /\ svc <> fn.
Proof.
  unfold Compute.__init__. intros H.
  apply bind_Ok in H as (this & sa & Hthis & H).
  apply bind_Ok in H as (server & sb & Hserver & H).
  apply bind_Ok in H as (container & sc & Hcontainer & H).
  apply bind_Ok in H as (u1 & sd & Hdep1 & H).
  apply bind_Ok in H as (function & se & Hfunction & H).
  apply bind_Ok in H as (u2 & sf & Hdep2 & H).
  apply ret_Ok in H as [-> ->]. cbn.
  apply silent_declare in Hthis as [Ga Da].
  apply Server_creates in Hserver as ([Gb Db] & Fvm & Kvm).
  apply Container_creates in Hcontainer as ([Gc Dc] & Fsvc & Ksvc).
  apply add_dependency_Ok in Hdep1 as [Gd Dd].
  apply Function_creates in Hfunction as ([Ge De] & Ffn & Kfn).
  apply add_dependency_Ok in Hdep2 as [Gf Df].
  split.
  { rewrite Df, De, Dd, Dc, Db, Da, <- app_assoc. reflexivity. }
  split; [intros K; apply Fvm, Ga, K|].
  split; [intros K; apply Fsvc, Gb, Ga, K|].
  split; [intros K; apply Ffn, Gd, Gc, Gb, Ga, K|].
  split; [intros Heq; apply Fsvc; rewrite <- Heq; exact Kvm|].
  split; [intros Heq; apply Ffn; rewrite <- Heq; apply Gd, Gc, Kvm|].
  intros Heq. apply Ffn. rewrite <- Heq. apply Gd, Ksvc.
Qed.

Lemma allow_Ok E peer target port s u s' :
  allow E peer target port s = Ok u s' ->
  grants s' =
    (grants s ++ [{| grant_peer := peer; grant_target := target;
                     grant_port := port |}])%list
  /\ nodes s' = nodes s.
Proof.
  unfold allow.
  destruct (negb (has_node peer s)); [discriminate|].
  destruct (negb (has_node target s)); [discriminate|].
  intros H. apply submit_Ok in H. subst s'. split; reflexivity.
Qed.

(** [allow_connections_from] adds one grant per argument, in argument
    order, each onto the file system's default port, and nothing else. *)
Lemma allow_connections_from_Ok E this others :
  forall s u s',
    Datastore.allow_connections_from E this others s = Ok u s' ->
    grants s' =
      (grants s
       ++ map (default_port_grant (Datastore.efs_file_system this)) others)%list
    /\ nodes s' = nodes s.
Proof.
  induction others as [|other others IH]; intros s u s' H; simpl in H.
  - apply ret_Ok in H as [_ ->]. rewrite app_nil_r. split; reflexivity.
  - apply bind_Ok in H as (u1 & s1 & H1 & H2).
    unfold allow_default_port_from in H1.
    apply allow_Ok in H1 as [G1 N1]. apply IH in H2 as [G2 N2].
    split; [|congruence].
    rewrite G2, G1, <- app_assoc. reflexivity.
Qed.

(** ** Strings *)

Lemma has_char_app c a b : has_char c (a +:+ b) = has_char c a || has_char c b.
Proof.
  induction a as [|x a IH]; simpl; [reflexivity|].
  rewrite IH, orb_assoc. reflexivity.
Qed.

Lemma mentions_has_char c needle hay :
  has_char c hay = false -> mentions (String c needle) hay = false.
Proof.
  induction hay as [|a hay IH]; simpl; [reflexivity|].
  intros H. apply orb_false_elim in H as [Hc Hrest].
  rewrite (IH Hrest), orb_false_r.
  destruct (ascii_dec c a) as [->|_]; [|reflexivity].
  rewrite Ascii.eqb_refl in Hc. discriminate.
Qed.

Lemma has_char_string_of_uint d :
  has_char "E" (NilEmpty.string_of_uint d) = false.
Proof. induction d; simpl; auto. Qed.

(** The decimal rendering of a number contains no letter [E]. *)
Lemma has_char_str n : has_char "E" (str n) = false.
Proof.
  unfold str, NilZero.string_of_int, NilZero.string_of_uint.
  destruct (Z.to_int n) as [d|d]; destruct d; simpl;
    auto using has_char_string_of_uint.
Qed.

(** The weight handed to a target-group builder is the weight of the
    weighted target group it returns. *)
Lemma create_ec2_target_group_weight E this vm vpc w s g s' :
  LoadBalancer._create_ec2_target_group E this vm vpc w s = Ok g s' ->
  weight g = w.
Proof.
  unfold LoadBalancer._create_ec2_target_group. intros H.
  apply bind_Ok in H as (? & ? & _ & H).
  apply bind_Ok in H as (? & ? & _ & H).
  apply ret_Ok in H as [-> _]. reflexivity.
Qed.

Lemma create_ecs_target_group_weight E this svc vpc w s g s' :
  LoadBalancer._create_ecs_target_group E this svc vpc w s = Ok g s' ->
  weight g = w.
Proof.
  unfold LoadBalancer._create_ecs_target_group. intros H.
  apply bind_Ok in H as (? & ? & _ & H).
  apply ret_Ok in H as [-> _]. reflexivity.
Qed.

Lemma create_lambda_target_group_weight E this fn w s g s' :
  LoadBalancer._create_lambda_target_group E this fn w s = Ok g s' ->
  weight g = w.
Proof.
  unfold LoadBalancer._create_lambda_target_group. intros H.
  apply bind_Ok in H as (? & ? & _ & H).
  apply ret_Ok in H as [-> _]. reflexivity.
Qed.

(** ** Runs of the whole deployment *)

(** Run the program up to the next question put to the provider, bring the
    store to normal form, and consider both answers. *)
Ltac ask_provider acc :=
  lazy head;
  match goal with
  | |- context C [if acc ?n ?o then @Ok ?A ?a ?s else ?r] =>
      let s' := eval vm_compute in s in
      let G := context C [if acc n o then @Ok A a s' else r] in
      change G;
      case (acc n o)
  end.

(** Whatever the provider answers, the deployment either goes through, and
    then ends in the store [final], or stops at the first operation the
    provider rejects, and then leaves an [interrupted] store. *)
Lemma run_cases E id_ :
  match Backend.__init__ E id_ with
  | Ok r s => s = final (consts E) (module_dir E) id_
  | Raise e s =>
      interrupted s = true
      /\ exists o,
           e = Rejected o /\ deployment_trace !! length (trace s) = Some o
  end.
Proof.
  destruct E as [acc c dir]. cbn [consts module_dir].
  repeat (ask_provider acc;
          [ | lazy head; split;
              [ vm_compute; reflexivity
              | eexists; split; [reflexivity | vm_compute; reflexivity] ] ]).
  vm_compute. reflexivity.
Qed.

Lemma run_Ok E id_ r s :
  Backend.__init__ E id_ = Ok r s -> s = final (consts E) (module_dir E) id_.
Proof. intros H. pose proof (run_cases E id_) as R. rewrite H in R. exact R. Qed.

Lemma run_Raise E id_ e s :
  Backend.__init__ E id_ = Raise e s -> interrupted s = true.
Proof.
  intros H. pose proof (run_cases E id_) as R. rewrite H in R. apply R.
Qed.

Lemma run_Raise_at E id_ e s :
  Backend.__init__ E id_ = Raise e s ->
  exists o, e = Rejected o /\ deployment_trace !! length (trace s) = Some o.
Proof.
  intros H. pose proof (run_cases E id_) as R. rewrite H in R. apply R.
Qed.

(** The bootstrap commands of a deployment, split before the commands
    that start the runtime, the only ones that depend on the service
    port. *)
Lemma bootstrap_commands_split E id_ r s :
  Backend.__init__ E id_ = Ok r s ->
  exists vm i,
    instances s = [(vm, i)]
    /\ user_data i =
         ((Server.apt_get_update_and_upgrade_commands
           ++ Server.install_efs_utils_commands
           ++ Server.mount_efs_commands
                (token "Datastore/EFSFileSystem/AccessPoint" "AccessPointId")
                (token "Datastore/EFSFileSystem" "FileSystemId") "/mnt/app"
           ++ Server.install_rust_and_wasm_commands
           ++ Server.install_spin_commands
           ++ Server.seed_data_to_efs_commands "/mnt/app")
          ++ Server.start_spin_commands E "/mnt/app")%list.
Proof.
  intros H. apply run_Ok in H. subst s. destruct E as [acc c dir].
  eexists _, _. cbn [consts module_dir].
  split; vm_compute; reflexivity.
Qed.

(** * The claims *)

(** C1.  In the dependency graph left by [Compute.__init__], whatever store
    it starts from (provided the dependencies already declared there are
    between nodes of that store), the service worker and the function worker
    each depend on the VM worker, neither requires the other even through a
    chain of dependencies, and therefore every order in which the provider
    may create the nodes puts the VM worker before both. *)
Theorem C1_vm_worker_precedes E scope id_ ap fsid vpc s0 c s1 :
  Compute.__init__ E scope id_ ap fsid vpc s0 = Ok c s1 ->
  (forall a b, depends_on s0 a b -> known s0 a) ->
  let vm := Compute.ec2_instance c in
  let svc := Compute.ecs_fargate_service c in
  let fn := Compute.lambda_function c in
  depends_on s1 svc vm /\ depends_on s1 fn vm
  /\ ~ requires s1 svc fn /\ ~ requires s1 fn svc
  /\ forall order,
       provisioning_order s1 order ->
       precedes order vm svc /\ precedes order vm fn.
Proof.
  intros H Hwf vm svc fn.
  destruct (Compute_run _ _ _ _ _ _ _ _ _ H)
    as (Hdeps & Fvm & Fsvc & Ffn & Hvs & Hvf & Hsf).
  fold vm svc fn in Hdeps, Fvm, Fsvc, Ffn, Hvs, Hvf, Hsf.
  assert (Hedge : forall a b, depends_on s1 a b ->
            (depends_on s0 a b /\ known s0 a)
            \/ (a = svc /\ b = vm) \/ (a = fn /\ b = vm)).
  { intros a b. unfold depends_on. rewrite Hdeps, elem_of_app.
    intros [Hin | Hin].
    - left. split; [exact Hin | eapply Hwf, Hin].
    - right. apply elem_of_cons in Hin as [Heq | Hin].
      + left. injection Heq as -> ->. split; reflexivity.
      + apply elem_of_cons in Hin as [Heq | Hin].
        * right. injection Heq as -> ->. split; reflexivity.
        * apply elem_of_nil in Hin. destruct Hin. }
  assert (Hsink : forall y, ~ requires s1 vm y).
  { intros y Hreq.
    assert (Hfirst : exists z, depends_on s1 vm z).
    { inversion Hreq; subst; eexists; eassumption. }
    destruct Hfirst as [z Hz].
    destruct (Hedge _ _ Hz) as [[_ K] | [[Heq _] | [Heq _]]].
    - exact (Fvm K).
    - exact (Hvs Heq).
    - exact (Hvf Heq). }
  assert (Hworker : forall x y,
            requires s1 x y -> x = svc \/ x = fn -> y = vm).
  { intros x y Hreq Hx.
    assert (Hstep : forall z, depends_on s1 x z -> z = vm).
    { intros z Hz.
      destruct (Hedge _ _ Hz) as [[_ K] | [[_ Heq] | [_ Heq]]];
        [|exact Heq|exact Heq].
      destruct Hx as [-> | ->]; [destruct (Fsvc K) | destruct (Ffn K)]. }
    inversion Hreq as [? ? Hxy | ? z ? Hxz Hzy]; subst.
    - apply Hstep, Hxy.
    - apply Hstep in Hxz. subst z. destruct (Hsink _ Hzy). }
  assert (Hsv : depends_on s1 svc vm).
  { unfold depends_on. rewrite Hdeps. apply elem_of_app. right.
    apply elem_of_cons. left. reflexivity. }
  assert (Hfv : depends_on s1 fn vm).
  { unfold depends_on. rewrite Hdeps. apply elem_of_app. right.
    apply elem_of_cons. right. apply elem_of_cons. left. reflexivity. }
  split; [exact Hsv|]. split; [exact Hfv|].
  split.
  { intros Hreq. apply Hvf. symmetry. eapply Hworker; [exact Hreq|].
    left. reflexivity. }
  split.
  { intros Hreq. apply Hvs. symmetry. eapply Hworker; [exact Hreq|].
    right. reflexivity. }
  intros order Horder. split; apply Horder; assumption.
Qed.

Lemma C1_vm_worker_precedes_witness :
  let s1 := state_of (Compute.__init__ test_env EmptyString "Compute"
                        "AccessPoint" "fs-1" "VPC" (empty_stack "Backend")) in
  let vm := "Compute/Server/EC2Instance" in
  let svc := "Compute/Container/ECSFargateService" in
  let fn := "Compute/Function/LambdaFunction" in
  depends_on s1 svc vm /\ depends_on s1 fn vm
  /\ ~ requires s1 svc fn /\ ~ requires s1 fn svc
  /\ forall order,
       provisioning_order s1 order ->
       precedes order vm svc /\ precedes order vm fn.
Proof.
  intros s1 vm svc fn.
  apply (C1_vm_worker_precedes test_env EmptyString "Compute" "AccessPoint"
           "fs-1" "VPC" (empty_stack "Backend")
           {| Compute.ec2_instance := vm;
              Compute.ecs_fargate_service := svc;
              Compute.lambda_function := fn |} s1).
  - vm_compute. reflexivity.
  - intros a b Hin. apply elem_of_nil in Hin. destruct Hin.
Defined.

(** C2.  The deployment publishes a non-empty endpoint exactly when the
    shared storage, the three workers, the three target groups and the
    listener rule have all been created; a deployment that stops on an
    exception publishes nothing, and one the provider never rejects does
    publish its endpoint. *)
Theorem C2_endpoint_iff_all_created E id_ :
  let s := state_of (Backend.__init__ E id_) in
  ((exists e, public_endpoint s = Some e /\ e <> EmptyString)
   <-> all_created s = true)
  /\ (forall err s',
        Backend.__init__ E id_ = Raise err s' ->
        public_endpoint s' = None /\ outputs s' = [])
  /\ (exists r s',
        Backend.__init__ (env_all (consts E) (module_dir E)) id_ = Ok r s'
        /\ exists e, public_endpoint s' = Some e /\ e <> EmptyString).
Proof.
  intros s. subst s. split; [|split].
  - destruct (Backend.__init__ E id_) as [r s|err s] eqn:H; cbn [state_of].
    + apply run_Ok in H. subst s. split.
      * intros _. vm_compute. reflexivity.
      * intros _. eexists. split; [vm_compute; reflexivity | discriminate].
    + apply run_Raise in H. unfold interrupted in H.
      apply andb_prop in H as [H _]. apply andb_prop in H as [H _].
      apply andb_prop in H as [Hall Hout].
      apply negb_true_iff in Hall, Hout.
      unfold public_endpoint. destruct (outputs s); [|discriminate].
      rewrite Hall. split.
      * intros (e & He & _). discriminate.
      * discriminate.
  - intros err s' H. apply run_Raise in H. unfold interrupted in H.
    apply andb_prop in H as [H _]. apply andb_prop in H as [H _].
    apply andb_prop in H as [_ Hout]. apply negb_true_iff in Hout.
    unfold public_endpoint. destruct (outputs s'); [|discriminate].
    split; reflexivity.
  - eexists _, _. split; [vm_compute; reflexivity|].
    eexists. split; [vm_compute; reflexivity | discriminate].
Qed.

Lemma C2_endpoint_iff_all_created_witness :
  public_endpoint (state_of (Backend.__init__ env_no_rule "Backend")) = None
  /\ outputs (state_of (Backend.__init__ env_no_rule "Backend")) = [].
Proof.
  eapply (proj1 (proj2 (C2_endpoint_iff_all_created env_no_rule "Backend"))).
  vm_compute. reflexivity.
Defined.

(** C7.  In every run of the orchestrator, also one cut short by an
    exception, the operations sent to the provider are an initial part of
    the same sequence, and that sequence never returns to an earlier step:
    network placement, storage, compute, storage authorization, splitter,
    endpoint.  A run that is not cut short takes all six steps in that
    order; its compute nodes were given the storage's access point, its
    target groups the three workers, and its output the balancer's
    address. *)
Theorem C7_steps_in_order E id_ :
  let t := trace (state_of (Backend.__init__ E id_)) in
  in_step_order t = true
  /\ t `prefix_of` deployment_trace
  /\ steps_taken deployment_trace =
       [ResolveNetwork; CreateStorage; CreateCompute; AuthorizeStorage;
        CreateSplitter; SurfaceEndpoint]
  /\ forall r s,
       Backend.__init__ E id_ = Ok r s ->
       trace s = deployment_trace
       /\ (exists ap fn f lb,
             map fst (access_points s) = [ap]
             /\ functions s = [(fn, f)]
             /\ fs_access_point (filesystem f) = ap
             /\ map fst (load_balancers s) = [lb]
             /\ concat (map (fun g => targets (snd g)) (target_groups s)) =
                  [InstanceTarget "Compute/Server/EC2Instance";
                   ServiceTarget "Compute/Container/ECSFargateService";
                   LambdaTarget "Compute/Function/LambdaFunction"]
             /\ public_endpoint s = Some (token lb "DNSName")).
Proof.
  intros t. subst t.
  assert (Hfull : in_step_order deployment_trace = true)
    by (vm_compute; reflexivity).
  split; [|split; [|split]].
  - destruct (Backend.__init__ E id_) as [r s|err s] eqn:H; cbn [state_of].
    + apply run_Ok in H. subst s. vm_compute. reflexivity.
    + apply run_Raise in H. unfold interrupted in H.
      apply andb_prop in H as [H _]. apply andb_prop in H as [_ H]. exact H.
  - destruct (Backend.__init__ E id_) as [r s|err s] eqn:H; cbn [state_of].
    + apply run_Ok in H. subst s. exists []. vm_compute. reflexivity.
    + apply run_Raise in H. unfold interrupted in H.
      apply andb_prop in H as [_ H]. apply bool_decide_eq_true in H. exact H.
  - vm_compute. reflexivity.
  - intros r s H. apply run_Ok in H. subst s.
    split; [vm_compute; reflexivity|].
    eexists _, _, _, _. vm_compute. repeat split; reflexivity.
Qed.

Lemma C7_steps_in_order_witness :
  let s := state_of (Backend.__init__ test_env "Backend") in
  trace s = deployment_trace
  /\ (exists ap fn f lb,
        map fst (access_points s) = [ap]
        /\ functions s = [(fn, f)]
        /\ fs_access_point (filesystem f) = ap
        /\ map fst (load_balancers s) = [lb]
        /\ concat (map (fun g => targets (snd g)) (target_groups s)) =
             [InstanceTarget "Compute/Server/EC2Instance";
              ServiceTarget "Compute/Container/ECSFargateService";
              LambdaTarget "Compute/Function/LambdaFunction"]
        /\ public_endpoint s = Some (token lb "DNSName")).
Proof.
  intros s.
  eapply (proj2 (proj2 (proj2 (C7_steps_in_order test_env "Backend")))).
  vm_compute. reflexivity.
Defined.

(** C4.  A deployment declares exactly three target groups, one per worker:
    an instance target for the VM worker, the service itself for the
    container worker, and a function-invoke target for the function worker.
    Each is given weight 1 in the single weighted-forward action of the
    single listener, which listens on port 80, so the rule's weights can be
    read back and add up to 3. *)
Theorem C4_one_weighted_target_per_worker E id_ r s :
  Backend.__init__ E id_ = Ok r s ->
  exists vm svc fn lb g1 g2 g3 listener,
    map fst (instances s) = [vm]
    /\ map fst (services s) = [svc]
    /\ map fst (functions s) = [fn]
    /\ map fst (load_balancers s) = [lb]
    /\ target_groups s =
         [ (g1, {| tg_port := Some (SPIN_PORT (consts E));
                   tg_protocol := Some HTTP;
                   targets := [InstanceTarget vm];
                   tg_vpc := Some "VPC" |});
           (g2, {| tg_port := Some (SPIN_PORT (consts E));
                   tg_protocol := Some HTTP;
                   targets := [ServiceTarget svc];
                   tg_vpc := Some "VPC" |});
           (g3, {| tg_port := None;
                   tg_protocol := None;
                   targets := [LambdaTarget fn];
                   tg_vpc := None |}) ]
    /\ NoDup [g1; g2; g3]
    /\ listeners s =
         [ (listener,
            {| listener_load_balancer := lb;
               listener_port := 80;
               listener_actions :=
                 [ ("Action",
                    weighted_forward
                      [ {| target_group := g1; weight := 1 |};
                        {| target_group := g2; weight := 1 |};
                        {| target_group := g3; weight := 1 |} ]) ] |}) ]
    /\ rule_weights s = [1; 1; 1]
    /\ foldr Z.add 0 (rule_weights s) = 3.
Proof.
  intros H. apply run_Ok in H. subst s. destruct E as [acc c dir].
  eexists _, _, _, _, _, _, _, _. cbn [consts module_dir].
  split; [vm_compute; reflexivity|].
  split; [vm_compute; reflexivity|].
  split; [vm_compute; reflexivity|].
  split; [vm_compute; reflexivity|].
  split; [vm_compute; reflexivity|].
  split; [apply (bool_decide_unpack _); vm_compute; exact I|].
  split; [vm_compute; reflexivity|].
  split; vm_compute; reflexivity.
Qed.

Lemma C4_one_weighted_target_per_worker_witness :
  let s := state_of (Backend.__init__ test_env "Backend") in
  exists vm svc fn lb g1 g2 g3 listener,
    map fst (instances s) = [vm]
    /\ map fst (services s) = [svc]
    /\ map fst (functions s) = [fn]
    /\ map fst (load_balancers s) = [lb]
    /\ target_groups s =
         [ (g1, {| tg_port := Some (SPIN_PORT (consts test_env));
                   tg_protocol := Some HTTP;
                   targets := [InstanceTarget vm];
                   tg_vpc := Some "VPC" |});
           (g2, {| tg_port := Some (SPIN_PORT (consts test_env));
                   tg_protocol := Some HTTP;
                   targets := [ServiceTarget svc];
                   tg_vpc := Some "VPC" |});
           (g3, {| tg_port := None;
                   tg_protocol := None;
                   targets := [LambdaTarget fn];
                   tg_vpc := None |}) ]
    /\ NoDup [g1; g2; g3]
    /\ listeners s =
         [ (listener,
            {| listener_load_balancer := lb;
               listener_port := 80;
               listener_actions :=
                 [ ("Action",
                    weighted_forward
                      [ {| target_group := g1; weight := 1 |};
                        {| target_group := g2; weight := 1 |};
                        {| target_group := g3; weight := 1 |} ]) ] |}) ]
    /\ rule_weights s = [1; 1; 1]
    /\ foldr Z.add 0 (rule_weights s) = 3.
Proof.
  intros s.
  eapply (C4_one_weighted_target_per_worker test_env "Backend").
  vm_compute. reflexivity.
Defined.





(** C6.  [allow_connections_from] grants, for each principal it is given
    and for no other, access from that principal to the file system's
    default port.  In a deployment the grants onto the file system are
    exactly three, from the VM worker, the service worker and the function
    worker that the compute component declared, which are three different
    nodes. *)
Theorem C6_storage_authorization E id_ r s :
  Backend.__init__ E id_ = Ok r s ->
  (forall this others s0 u s1,
     Datastore.allow_connections_from E this others s0 = Ok u s1 ->
     grants s1 =
       (grants s0
        ++ map (default_port_grant (Datastore.efs_file_system this))
             others)%list)
  /\ exists fs vm svc fn,
       map fst (file_systems s) = [fs]
       /\ map fst (instances s) = [vm]
       /\ map fst (services s) = [svc]
       /\ map fst (functions s) = [fn]
       /\ map component_step [vm; svc; fn] =
            [CreateCompute; CreateCompute; CreateCompute]
       /\ NoDup [vm; svc; fn]
       /\ grants_to fs s = map (default_port_grant fs) [vm; svc; fn].
Proof.
  intros H. split.
  - intros this others s0 u s1 H1.
    apply allow_connections_from_Ok in H1 as [G _]. exact G.
  - apply run_Ok in H. subst s. destruct E as [acc c dir].
    eexists _, _, _, _. cbn [consts module_dir].
    split; [vm_compute; reflexivity|].
    split; [vm_compute; reflexivity|].
    split; [vm_compute; reflexivity|].
    split; [vm_compute; reflexivity|].
    split; [vm_compute; reflexivity|].
    split; [apply (bool_decide_unpack _); vm_compute; exact I|].
    vm_compute. reflexivity.
Qed.

Lemma C6_storage_authorization_witness :
  let s := state_of (Backend.__init__ test_env "Backend") in
  exists fs vm svc fn,
    map fst (file_systems s) = [fs]
    /\ map fst (instances s) = [vm]
    /\ map fst (services s) = [svc]
    /\ map fst (functions s) = [fn]
    /\ map component_step [vm; svc; fn] =
         [CreateCompute; CreateCompute; CreateCompute]
    /\ NoDup [vm; svc; fn]
    /\ grants_to fs s = map (default_port_grant fs) [vm; svc; fn].
Proof.
  intros s.
  eapply (fun H => proj2 (C6_storage_authorization test_env "Backend" _ _ H)).
  vm_compute. reflexivity.
Defined.

(** C3, the claim as stated, fails: no deployment, whatever the provider
    does, declares a rule in which the VM target has weight 0 and the
    service target twice the weight of the function target.
    [LoadBalancer.__init__] has no weights argument to ask for one. *)
Lemma C3_no_deployment_has_weights_0_2_1 :
  ~ exists E id_ r s,
      Backend.__init__ E id_ = Ok r s
      /\ exists vm_weight service_weight function_weight,
           rule_weights s = [vm_weight; service_weight; function_weight]
           /\ vm_weight = 0
           /\ service_weight = 2 * function_weight.
Proof.
  intros (E & id_ & r & s & H & v & sv & f & Hw & Hv & Hs).
  apply run_Ok in H. subst s. destruct E as [acc c dir].
  vm_compute in Hw. injection Hw as <- <- <-. discriminate.
Qed.

(** C3, amended.  The splitter takes no weights: every deployment declares
    one rule that keeps all three target groups, each with weight 1.  The
    three target-group builders do take a weight and return a weighted
    target group of exactly that weight, so built with 0, 2 and 1 they
    return a VM target of weight 0 and a service target of twice the
    function target's weight. *)
Theorem C3_weights_fixed_at_one E id_ r s :
  Backend.__init__ E id_ = Ok r s ->
  (rule_weights s = [1; 1; 1]
   /\ map target_group (rule_targets s) = map fst (target_groups s))
  /\ forall this vm svc fn vpc w1 w2 w3 s0 g1 s1 g2 s2 g3 s3,
       LoadBalancer._create_ec2_target_group E this vm vpc w1 s0 = Ok g1 s1 ->
       LoadBalancer._create_ecs_target_group E this svc vpc w2 s1 = Ok g2 s2 ->
       LoadBalancer._create_lambda_target_group E this fn w3 s2 = Ok g3 s3 ->
       map weight [g1; g2; g3] = [w1; w2; w3].
Proof.
  intros H. split.
  - apply run_Ok in H. subst s. destruct E as [acc c dir].
    split; vm_compute; reflexivity.
  - intros this vm svc fn vpc w1 w2 w3 s0 g1 s1 g2 s2 g3 s3 H1 H2 H3.
    apply create_ec2_target_group_weight in H1.
    apply create_ecs_target_group_weight in H2.
    apply create_lambda_target_group_weight in H3.
    simpl. congruence.
Qed.

Lemma C3_weights_fixed_at_one_witness :
  rule_weights (state_of (Backend.__init__ test_env "Backend")) = [1; 1; 1]
  /\ exists g1 s1 g2 s2 g3 s3,
       LoadBalancer._create_ec2_target_group test_env
         {| LoadBalancer.this := "LoadBalancer";
            LoadBalancer._elb_alb := "LoadBalancer/ELBALB" |}
         "Compute/Server/EC2Instance" "VPC" 0 before_target_groups
       = Ok g1 s1
       /\ LoadBalancer._create_ecs_target_group test_env
            {| LoadBalancer.this := "LoadBalancer";
               LoadBalancer._elb_alb := "LoadBalancer/ELBALB" |}
            "Compute/Container/ECSFargateService" "VPC" 2 s1
          = Ok g2 s2
       /\ LoadBalancer._create_lambda_target_group test_env
            {| LoadBalancer.this := "LoadBalancer";
               LoadBalancer._elb_alb := "LoadBalancer/ELBALB" |}
            "Compute/Function/LambdaFunction" 1 s2
          = Ok g3 s3
       /\ map weight [g1; g2; g3] = [0; 2; 1]
       /\ weight g2 = 2 * weight g3.
Proof.
  assert (Hrun : Backend.__init__ test_env "Backend"
                 = Ok {| Backend.load_balancer_endpoint :=
                           "LoadBalancerEndpoint" |}
                      (state_of (Backend.__init__ test_env "Backend")))
    by (vm_compute; reflexivity).
  destruct (C3_weights_fixed_at_one test_env "Backend" _ _ Hrun)
    as [[Hw _] Hbuild].
  split; [exact Hw|].
  eexists _, _, _, _, _, _.
  split; [vm_compute; reflexivity|].
  split; [vm_compute; reflexivity|].
  split; [vm_compute; reflexivity|].
  split; vm_compute; reflexivity.
Defined.






(** * Further properties of the deployment *)

(** X1.  The only exception a deployment can end in is the provider's
    rejection of an operation: the program never declares an identifier
    twice and never refers to a construct that does not exist yet.  The
    rejected operation is the one that comes next in the deployment's
    sequence, after the operations already recorded. *)
Theorem X1_only_rejections_interrupt E id_ e s :
  Backend.__init__ E id_ = Raise e s ->
  exists o,
    e = Rejected o
    /\ deployment_trace !! length (trace s) = Some o
    /\ trace s = take (length (trace s)) deployment_trace.
Proof.
  intros H. destruct (run_Raise_at _ _ _ _ H) as (o & He & Ho).
  exists o. split; [exact He|]. split; [exact Ho|].
  apply run_Raise in H. unfold interrupted in H.
  apply andb_prop in H as [_ H]. apply bool_decide_eq_true in H.
  destruct H as [rest Hrest]. rewrite Hrest, take_app_length. reflexivity.
Qed.

Lemma X1_only_rejections_interrupt_witness :
  exists o,
    Rejected (OpMutate "LoadBalancer/ELBALB/Listener" "add_action")
      = Rejected o
    /\ deployment_trace
         !! length (trace (state_of (Backend.__init__ env_no_rule "Backend")))
       = Some o
    /\ trace (state_of (Backend.__init__ env_no_rule "Backend")) =
         take (length (trace (state_of
                                (Backend.__init__ env_no_rule "Backend"))))
           deployment_trace.
Proof.
  apply (X1_only_rejections_interrupt env_no_rule "Backend").
  vm_compute. reflexivity.
Defined.

(** X2.  In a deployment the VM worker's role carries two managed policies,
    session access and then file-system client access, and the service
    worker's task role carries the file-system client policy. *)
Theorem X2_capability_policies E id_ r s :
  Backend.__init__ E id_ = Ok r s ->
  map (fun pi => role_managed_policies (snd pi)) (instances s) =
    [ [ "AmazonSSMManagedInstanceCore";
        "AmazonElasticFileSystemClientReadWriteAccess" ] ]
  /\ map (fun pt => task_role_managed_policies (snd pt))
       (task_definitions s) =
       [ [ "AmazonElasticFileSystemClientReadWriteAccess" ] ].
Proof.
  intros H. apply run_Ok in H. subst s. destruct E as [acc c dir].
  split; vm_compute; reflexivity.
Qed.

Lemma X2_capability_policies_witness :
  let s := state_of (Backend.__init__ test_env "Backend") in
  map (fun pi => role_managed_policies (snd pi)) (instances s) =
    [ [ "AmazonSSMManagedInstanceCore";
        "AmazonElasticFileSystemClientReadWriteAccess" ] ]
  /\ map (fun pt => task_role_managed_policies (snd pt))
       (task_definitions s) =
       [ [ "AmazonElasticFileSystemClientReadWriteAccess" ] ].
Proof.
  intros s.
  eapply (X2_capability_policies test_env "Backend").
  vm_compute. reflexivity.
Defined.



(** X4.  One service port serves the whole deployment: the VM worker's
    runtime listens on it, the container maps it, and the two target groups
    that have a port use it. *)
Theorem X4_one_service_port E id_ r s :
  Backend.__init__ E id_ = Ok r s ->
  let port := SPIN_PORT (consts E) in
  map (fun pc => port_mappings (snd pc)) (container_definitions s) = [[port]]
  /\ omap (fun pg => tg_port (snd pg)) (target_groups s) = [port; port]
  /\ exists vm i,
       instances s = [(vm, i)]
       /\ last (user_data i) =
            Some ("spin up --listen 0.0.0.0:" +:+ str port
                  +:+ " --disable-cache --file /mnt/app/spin-hello-world/spin.toml").
Proof.
  intros H port. subst port. apply run_Ok in H. subst s.
  destruct E as [acc c dir]. cbn [consts module_dir].
  split; [vm_compute; reflexivity|].
  split; [vm_compute; reflexivity|].
  eexists _, _. split; vm_compute; reflexivity.
Qed.

Lemma X4_one_service_port_witness :
  let s := state_of (Backend.__init__ test_env "Backend") in
  map (fun pc => port_mappings (snd pc)) (container_definitions s) = [[3000]]
  /\ omap (fun pg => tg_port (snd pg)) (target_groups s) = [3000; 3000]
  /\ exists vm i,
       instances s = [(vm, i)]
       /\ last (user_data i) =
            Some ("spin up --listen 0.0.0.0:" +:+ str 3000
                  +:+ " --disable-cache --file /mnt/app/spin-hello-world/spin.toml").
Proof.
  intros s.
  eapply (X4_one_service_port test_env "Backend").
  vm_compute. reflexivity.
Defined.

(** * Properties of the components, from any store *)

(** ** Runs from an arbitrary store, node by node *)

Lemma bind_Raise {A B} (m : M A) (k : A -> M B) s e s' :
  bind m k s = Raise e s' ->
  m s = Raise e s' \/ exists a s1, m s = Ok a s1 /\ k a s1 = Raise e s'.
Proof.
  unfold bind. destruct (m s) as [a s1|e1 s1].
  - intros H. right. exists a, s1. split; [reflexivity | exact H].
  - intros H. left. injection H as -> ->. reflexivity.
Qed.

Lemma submit_Raise E o f s e s' :
  submit E o f s = Raise e s' -> e = Rejected o /\ s' = s.
Proof.
  unfold submit. destruct (accepts E _ o); [discriminate|].
  intros H. injection H as <- <-. split; reflexivity.
Qed.

Lemma declare_Raise E scope id n s e s' :
  declare E scope id n s = Raise e s' -> s' = s.
Proof.
  unfold declare. destruct (negb (has_node scope s)).
  { intros H. injection H as _ <-. reflexivity. }
  destruct (lookup_node (child scope id) (nodes s)).
  { intros H. injection H as _ <-. reflexivity. }
  destruct (submit _ _ _ s) as [u s1|e1 s1] eqn:Hs; [discriminate|].
  intros H. injection H as _ <-. apply submit_Raise in Hs as [_ ->].
  reflexivity.
Qed.

Lemma mutate_Raise E p method f s e s' :
  mutate E p method f s = Raise e s' -> s' = s.
Proof.
  unfold mutate. destruct (lookup_node p (nodes s)) as [n|].
  - destruct (f n).
    + intros H. apply submit_Raise in H as [_ ->]. reflexivity.
    + intros H. injection H as _ <-. reflexivity.
  - intros H. injection H as _ <-. reflexivity.
Qed.

Lemma allow_Raise E peer target port s e s' :
  allow E peer target port s = Raise e s' -> s' = s.
Proof.
  unfold allow. destruct (negb (has_node peer s)).
  { intros H. injection H as _ <-. reflexivity. }
  destruct (negb (has_node target s)).
  { intros H. injection H as _ <-. reflexivity. }
  intros H. apply submit_Raise in H as [_ ->]. reflexivity.
Qed.

Lemma declare_adds E scope id n s p s' :
  declare E scope id n s = Ok p s' ->
  p = child scope id
  /\ lookup_node p (nodes s) = None
  /\ nodes s' = (nodes s ++ [(p, n)])%list
  /\ dependencies s' = dependencies s
  /\ grants s' = grants s.
Proof.
  unfold declare. destruct (negb (has_node scope s)); [discriminate|].
  destruct (lookup_node (child scope id) (nodes s)) eqn:Hfresh;
    [discriminate|].
  destruct (submit _ _ _ s) as [u s1|e s1] eqn:Hs; [|discriminate].
  intros H. injection H as <- <-. apply submit_Ok in Hs. subst s1.
  repeat split; assumption.
Qed.

Lemma mutate_replaces E p method f s u s' :
  mutate E p method f s = Ok u s' ->
  exists n n',
    lookup_node p (nodes s) = Some n
    /\ f n = Some n'
    /\ nodes s' = replace_node p n' (nodes s)
    /\ dependencies s' = dependencies s
    /\ grants s' = grants s.
Proof.
  unfold mutate. destruct (lookup_node p (nodes s)) as [n|]; [|discriminate].
  destruct (f n) as [n'|] eqn:Hf; [|discriminate].
  intros H. apply submit_Ok in H. subst s'.
  exists n, n'. repeat split; assumption.
Qed.

Lemma lookup_replace_eq p n' l :
  is_Some (lookup_node p l) -> lookup_node p (replace_node p n' l) = Some n'.
Proof.
  induction l as [|[q m] l IH]; simpl.
  - intros [x Hx]. discriminate.
  - destruct (String.eqb p q) eqn:Hq; simpl; rewrite Hq.
    + reflexivity.
    + exact IH.
Qed.

Lemma lookup_replace_ne p q n' l :
  q <> p -> lookup_node q (replace_node p n' l) = lookup_node q l.
Proof.
  intros Hne. induction l as [|[q' m] l IH]; simpl; [reflexivity|].
  destruct (String.eqb p q') eqn:Hp; simpl.
  - apply String.eqb_eq in Hp. subst q'.
    destruct (String.eqb q p) eqn:Hq; [|reflexivity].
    apply String.eqb_eq in Hq. contradiction.
  - destruct (String.eqb q q'); [reflexivity | exact IH].
Qed.

Lemma replace_replace p n n' l :
  replace_node p n' (replace_node p n l) = replace_node p n' l.
Proof.
  induction l as [|[q m] l IH]; simpl; [reflexivity|].
  destruct (String.eqb p q) eqn:Hq; simpl; rewrite Hq.
  - reflexivity.
  - rewrite IH. reflexivity.
Qed.

Lemma replace_fresh_app p n n' l :
  lookup_node p l = None ->
  replace_node p n' (l ++ [(p, n)]) = (l ++ [(p, n')])%list.
Proof.
  induction l as [|[q m] l IH]; simpl.
  - intros _. rewrite String.eqb_refl. reflexivity.
  - destruct (String.eqb p q); [discriminate|].
    intros H. rewrite (IH H). reflexivity.
Qed.

(** A change to the node declared last. *)
Lemma mutate_last E p method f l n s u s' :
  nodes s = (l ++ [(p, n)])%list ->
  lookup_node p l = None ->
  mutate E p method f s = Ok u s' ->
  exists n',
    f n = Some n'
    /\ nodes s' = (l ++ [(p, n')])%list
    /\ dependencies s' = dependencies s
    /\ grants s' = grants s.
Proof.
  intros Hl Hfresh H.
  apply mutate_replaces in H as (n0 & n' & Hn & Hf & Hnodes & Hd & Hg).
  rewrite Hl, lookup_node_app, Hfresh, String.eqb_refl in Hn.
  injection Hn as <-.
  exists n'. split; [exact Hf|]. split; [|split; assumption].
  rewrite Hnodes, Hl. apply replace_fresh_app, Hfresh.
Qed.

Lemma same_elsewhere_replace p n' s s' :
  nodes s' = replace_node p n' (nodes s) -> same_elsewhere p s s'.
Proof. intros H q Hq. rewrite H. apply lookup_replace_ne, Hq. Qed.

(** ** The VM worker's methods *)

Lemma add_commands_Ok E p cmds s u s' :
  Server.add_commands E p cmds s = Ok u s' ->
  exists i,
    lookup_node p (nodes s) = Some (Instance i)
    /\ nodes s' =
         replace_node p
           (Instance (instance_with i (role_managed_policies i)
                        (user_data i ++ cmds)))
           (nodes s)
    /\ dependencies s' = dependencies s
    /\ grants s' = grants s.
Proof.
  unfold Server.add_commands. intros H.
  apply mutate_replaces in H as (n & n' & Hn & Hf & Hnodes & Hd & Hg).
  destruct n; try discriminate. injection Hf as <-.
  eexists. repeat split; eassumption.
Qed.

Lemma add_managed_policy_Ok E p name s u s' :
  Server.add_managed_policy E p name s = Ok u s' ->
  exists i,
    lookup_node p (nodes s) = Some (Instance i)
    /\ nodes s' =
         replace_node p
           (Instance (instance_with i (role_managed_policies i ++ [name])
                        (user_data i)))
           (nodes s)
    /\ dependencies s' = dependencies s
    /\ grants s' = grants s.
Proof.
  unfold Server.add_managed_policy. intros H.
  apply mutate_replaces in H as (n & n' & Hn & Hf & Hnodes & Hd & Hg).
  destruct n; try discriminate. injection Hf as <-.
  eexists. repeat split; eassumption.
Qed.

(** One more change to the instance at [p], after changes that have been
    summed up as one replacement in the store [s0]. *)
Lemma add_commands_after E p cmds i0 P U s0 s1 u s2 :
  lookup_node p (nodes s0) = Some (Instance i0) ->
  nodes s1 = replace_node p (Instance (instance_with i0 P U)) (nodes s0) ->
  Server.add_commands E p cmds s1 = Ok u s2 ->
  nodes s2 =
    replace_node p (Instance (instance_with i0 P (U ++ cmds))) (nodes s0)
  /\ dependencies s2 = dependencies s1
  /\ grants s2 = grants s1.
Proof.
  intros H0 H1 H.
  apply add_commands_Ok in H as (i & Hi & Hnodes & Hd & Hg).
  rewrite H1, lookup_replace_eq in Hi by (rewrite H0; eexists; reflexivity).
  injection Hi as <-.
  rewrite Hnodes, H1, replace_replace. repeat split; assumption.
Qed.

Lemma add_managed_policy_after E p name i0 P U s0 s1 u s2 :
  lookup_node p (nodes s0) = Some (Instance i0) ->
  nodes s1 = replace_node p (Instance (instance_with i0 P U)) (nodes s0) ->
  Server.add_managed_policy E p name s1 = Ok u s2 ->
  nodes s2 =
    replace_node p (Instance (instance_with i0 (P ++ [name]) U)) (nodes s0)
  /\ dependencies s2 = dependencies s1
  /\ grants s2 = grants s1.
Proof.
  intros H0 H1 H.
  apply add_managed_policy_Ok in H as (i & Hi & Hnodes & Hd & Hg).
  rewrite H1, lookup_replace_eq in Hi by (rewrite H0; eexists; reflexivity).
  injection Hi as <-.
  rewrite Hnodes, H1, replace_replace. repeat split; assumption.
Qed.

(** What [_add_user_data] does to a store: the instance's commands grow by
    [bootstrap_commands], nothing else changes. *)
Lemma add_user_data_Ok E this ap fs mp s u s' :
  Server._add_user_data E this ap fs mp s = Ok u s' ->
  exists i,
    lookup_node (Server.ec2_instance this) (nodes s) = Some (Instance i)
    /\ nodes s' =
         replace_node (Server.ec2_instance this)
           (Instance (instance_with i (role_managed_policies i)
                        (user_data i ++ bootstrap_commands E ap fs mp)))
           (nodes s)
    /\ dependencies s' = dependencies s
    /\ grants s' = grants s.
Proof.
  unfold Server._add_user_data, Server._apt_get_update_and_upgrade,
    Server._install_efs_utils, Server._mount_efs,
    Server._install_rust_and_wasm, Server._install_spin,
    Server._seed_data_to_efs, Server._start_spin.
  intros H.
  apply bind_Ok in H as (u1 & s1 & H1 & H).
  apply bind_Ok in H as (u2 & s2 & H2 & H).
  apply bind_Ok in H as (u3 & s3 & H3 & H).
  apply bind_Ok in H as (u4 & s4 & H4 & H).
  apply bind_Ok in H as (u5 & s5 & H5 & H).
  apply bind_Ok in H as (u6 & s6 & H6 & H7).
  apply add_commands_Ok in H1 as (i & Hi & N1 & D1 & G1).
  exists i. split; [exact Hi|].
  destruct (add_commands_after _ _ _ _ _ _ _ _ _ _ Hi N1 H2) as (N2 & D2 & G2).
  destruct (add_commands_after _ _ _ _ _ _ _ _ _ _ Hi N2 H3) as (N3 & D3 & G3).
  destruct (add_commands_after _ _ _ _ _ _ _ _ _ _ Hi N3 H4) as (N4 & D4 & G4).
  destruct (add_commands_after _ _ _ _ _ _ _ _ _ _ Hi N4 H5) as (N5 & D5 & G5).
  destruct (add_commands_after _ _ _ _ _ _ _ _ _ _ Hi N5 H6) as (N6 & D6 & G6).
  destruct (add_commands_after _ _ _ _ _ _ _ _ _ _ Hi N6 H7) as (N7 & D7 & G7).
  split; [|split; congruence].
  rewrite N7. unfold bootstrap_commands. rewrite <- !app_assoc. reflexivity.
Qed.

Lemma add_permissions_Ok E this s u s' :
  Server._add_permissions E this s = Ok u s' ->
  exists i,
    lookup_node (Server.ec2_instance this) (nodes s) = Some (Instance i)
    /\ nodes s' =
         replace_node (Server.ec2_instance this)
           (Instance (instance_with i
                        (role_managed_policies i ++ instance_policies)
                        (user_data i)))
           (nodes s)
    /\ dependencies s' = dependencies s
    /\ grants s' = grants s.
Proof.
  unfold Server._add_permissions. intros H.
  apply bind_Ok in H as (u1 & s1 & H1 & H2).
  apply add_managed_policy_Ok in H1 as (i & Hi & N1 & D1 & G1).
  exists i. split; [exact Hi|].
  destruct (add_managed_policy_after _ _ _ _ _ _ _ _ _ _ Hi N1 H2)
    as (N2 & D2 & G2).
  split; [|split; congruence].
  rewrite N2. unfold instance_policies. rewrite <- app_assoc. reflexivity.
Qed.

Lemma start_spin_commands_consts E E' mp :
  consts E = consts E' ->
  Server.start_spin_commands E mp = Server.start_spin_commands E' mp.
Proof. unfold Server.start_spin_commands. intros ->. reflexivity. Qed.

Lemma bootstrap_commands_consts E E' ap fs mp :
  consts E = consts E' ->
  bootstrap_commands E ap fs mp = bootstrap_commands E' ap fs mp.
Proof.
  intros H. unfold bootstrap_commands.
  rewrite (start_spin_commands_consts E E' mp H). reflexivity.
Qed.

(** ** Stores that grow *)

Lemma lookup_node_None_keys q l :
  lookup_node q l = None <-> q ∉ map fst l.
Proof.
  induction l as [|[p n] l IH]; simpl.
  - split; [intros _ Hin; apply elem_of_nil in Hin; exact Hin | reflexivity].
  - rewrite not_elem_of_cons. destruct (String.eqb q p) eqn:Hq.
    + apply String.eqb_eq in Hq. split; [discriminate|].
      intros [Hne _]. contradiction.
    + apply String.eqb_neq in Hq. rewrite IH. tauto.
Qed.

Lemma lookup_node_app_None q l1 l2 :
  lookup_node q (l1 ++ l2) = None <->
  lookup_node q l1 = None /\ lookup_node q l2 = None.
Proof.
  rewrite !lookup_node_None_keys, map_app, not_elem_of_app. reflexivity.
Qed.

Lemma lookup_node_app_l q l1 l2 n :
  lookup_node q l1 = Some n -> lookup_node q (l1 ++ l2) = Some n.
Proof.
  induction l1 as [|[p m] l1 IH]; simpl; [discriminate|].
  destruct (String.eqb q p); [intros H; exact H | exact IH].
Qed.

Lemma lookup_node_app_r q l1 l2 :
  lookup_node q l1 = None -> lookup_node q (l1 ++ l2) = lookup_node q l2.
Proof.
  induction l1 as [|[p m] l1 IH]; simpl; [reflexivity|].
  destruct (String.eqb q p); [discriminate | exact IH].
Qed.

Lemma extends_by_nil s s' : nodes s' = nodes s -> extends_by s s' [].
Proof.
  intros H. split; [rewrite app_nil_r; exact H|].
  split; [constructor|]. intros q Hq. apply elem_of_nil in Hq. destruct Hq.
Qed.

Lemma extends_by_nodes s s' s'' new :
  extends_by s s' new -> nodes s'' = nodes s' -> extends_by s s'' new.
Proof. intros (N & D & F) H. split; [congruence|]. split; assumption. Qed.

Lemma extends_by_snoc s s1 s2 new p n :
  extends_by s s1 new ->
  lookup_node p (nodes s1) = None ->
  nodes s2 = (nodes s1 ++ [(p, n)])%list ->
  extends_by s s2 (new ++ [(p, n)]).
Proof.
  intros (N & D & F) Hp N2. rewrite N in Hp.
  apply lookup_node_app_None in Hp as [Hps Hpn].
  apply lookup_node_None_keys in Hpn.
  split; [rewrite N2, N, <- app_assoc; reflexivity|].
  rewrite map_app. split.
  - apply NoDup_app. split; [exact D|]. split.
    + intros q Hq Hq'. apply list_elem_of_singleton in Hq'. subst q.
      contradiction.
    + apply NoDup_singleton.
  - intros q Hq. apply elem_of_app in Hq as [Hq | Hq]; [apply F, Hq|].
    apply list_elem_of_singleton in Hq. subst q. exact Hps.
Qed.

Lemma extends_by_trans s s1 s2 new1 new2 :
  extends_by s s1 new1 -> extends_by s1 s2 new2 ->
  extends_by s s2 (new1 ++ new2).
Proof.
  intros (N1 & D1 & F1) (N2 & D2 & F2).
  split; [rewrite N2, N1, <- app_assoc; reflexivity|].
  rewrite map_app. split.
  - apply NoDup_app. split; [exact D1|]. split; [|exact D2].
    intros q Hq Hq'. apply F2 in Hq'. rewrite N1 in Hq'.
    apply lookup_node_app_None in Hq' as [_ Hq'].
    apply lookup_node_None_keys in Hq'. contradiction.
  - intros q Hq. apply elem_of_app in Hq as [Hq | Hq]; [apply F1, Hq|].
    apply F2 in Hq. rewrite N1 in Hq.
    apply lookup_node_app_None in Hq as [Hq _]. exact Hq.
Qed.

Lemma extends_by_last_fresh s s1 new p n :
  extends_by s s1 (new ++ [(p, n)]) ->
  lookup_node p (nodes s ++ new) = None.
Proof.
  intros (N & D & F). apply lookup_node_app_None. split.
  - apply F. rewrite map_app. apply elem_of_app. right.
    apply list_elem_of_singleton. reflexivity.
  - apply lookup_node_None_keys. rewrite map_app in D.
    apply NoDup_app in D as (_ & D & _). intros Hin.
    apply (D _ Hin). apply list_elem_of_singleton. reflexivity.
Qed.

Lemma extends_by_last_lookup s s1 new p n :
  extends_by s s1 (new ++ [(p, n)]) -> lookup_node p (nodes s1) = Some n.
Proof.
  intros Hext. pose proof (extends_by_last_fresh _ _ _ _ _ Hext) as Hf.
  destruct Hext as (N & _ & _).
  rewrite N, app_assoc, lookup_node_app, Hf, String.eqb_refl. reflexivity.
Qed.

(** The node added last is replaced. *)
Lemma extends_by_replace s s1 s2 new p n n' :
  extends_by s s1 (new ++ [(p, n)]) ->
  nodes s2 = replace_node p n' (nodes s1) ->
  extends_by s s2 (new ++ [(p, n')]).
Proof.
  intros Hext N2. pose proof (extends_by_last_fresh _ _ _ _ _ Hext) as Hf.
  destruct Hext as (N & D & F).
  split.
  - rewrite N2, N, app_assoc, replace_fresh_app, <- app_assoc by exact Hf.
    reflexivity.
  - rewrite map_app in *. split; [exact D | exact F].
Qed.

(** A change to the node added last. *)
Lemma extends_by_mutate E s s1 new p n method f u s2 :
  extends_by s s1 (new ++ [(p, n)]) ->
  mutate E p method f s1 = Ok u s2 ->
  exists n',
    f n = Some n'
    /\ extends_by s s2 (new ++ [(p, n')])
    /\ dependencies s2 = dependencies s1
    /\ grants s2 = grants s1.
Proof.
  intros Hext H.
  apply mutate_replaces in H as (n0 & n' & Hn & Hf & N2 & D2 & G2).
  rewrite (extends_by_last_lookup _ _ _ _ _ Hext) in Hn. injection Hn as <-.
  exists n'. split; [exact Hf|]. split; [|split; assumption].
  eapply extends_by_replace; eassumption.
Qed.

Lemma extends_by_declare E s s1 new scope id n p s2 :
  extends_by s s1 new ->
  declare E scope id n s1 = Ok p s2 ->
  p = child scope id
  /\ extends_by s s2 (new ++ [(p, n)])
  /\ dependencies s2 = dependencies s1
  /\ grants s2 = grants s1.
Proof.
  intros Hext H. apply declare_adds in H as (Hp & Hf & N & D & G).
  split; [exact Hp|]. split; [|split; assumption].
  eapply extends_by_snoc; eassumption.
Qed.

(** What a grown store keeps and what it has more. *)
Lemma extends_by_keeps s s' new : extends_by s s' new -> keeps_nodes s s'.
Proof. intros (N & _ & _) q n Hq. rewrite N. apply lookup_node_app_l, Hq. Qed.

Lemma extends_by_lookup s s' new q :
  extends_by s s' new ->
  q ∈ map fst new ->
  lookup_node q (nodes s') = lookup_node q new.
Proof.
  intros (N & _ & F) Hq. rewrite N. apply lookup_node_app_r, F, Hq.
Qed.

(** ** What each constructor adds to a store, proved *)



Lemma Server_init_Ok E scope id_ ap fs mp vpc s r s' :
  Server.__init__ E scope id_ ap fs mp vpc s = Ok r s' ->
  r = {| Server.ec2_instance := child (child scope id_) "EC2Instance" |}
  /\ extends_by s s' (server_nodes E scope id_ ap fs mp vpc)
  /\ dependencies s' = dependencies s
  /\ grants s' = grants s.
Proof.
  intros H. unfold Server.__init__ in H.
  apply bind_Ok in H as (this & s1 & H1 & H).
  apply bind_Ok in H as (vm & s2 & H2 & H).
  apply bind_Ok in H as (u3 & s3 & H3 & H).
  apply bind_Ok in H as (u4 & s4 & H4 & H).
  apply ret_Ok in H as [-> ->].
  pose proof (extends_by_nil s s eq_refl) as X0.
  destruct (extends_by_declare _ _ _ _ _ _ _ _ _ X0 H1) as (-> & X1 & D1 & G1).
  destruct (extends_by_declare _ _ _ _ _ _ _ _ _ X1 H2) as (-> & X2 & D2 & G2).
  apply add_permissions_Ok in H3 as (i & Hi & N3 & D3 & G3).
  apply add_user_data_Ok in H4 as (i' & Hi' & N4 & D4 & G4).
  cbn [Server.ec2_instance] in *.
  rewrite (extends_by_last_lookup _ _ _ _ _ X2) in Hi. injection Hi as <-.
  pose proof (extends_by_replace _ _ _ _ _ _ _ X2 N3) as X3.
  rewrite (extends_by_last_lookup _ _ _ _ _ X3) in Hi'. injection Hi' as <-.
  pose proof (extends_by_replace _ _ _ _ _ _ _ X3 N4) as X4.
  split; [reflexivity|]. split; [exact X4|]. split; congruence.
Qed.

Lemma Container_init_Ok E scope id_ ap fs mp var vpc s r s' :
  Container.__init__ E scope id_ ap fs mp var vpc s = Ok r s' ->
  r = {| Container.ecs_fargate_service :=
           child (child scope id_) "ECSFargateService" |}
  /\ extends_by s s' (container_nodes E scope id_ ap fs mp var vpc)
  /\ dependencies s' = dependencies s
  /\ grants s' = grants s.
Proof.
  intros H.
  unfold Container.__init__, Container._create_ecs_fargate_task_definition,
    Container._add_volume, Container._add_container,
    Container.add_managed_policy, Container.add_volume,
    Container.add_mount_points in H.
  apply bind_Ok in H as (this & s1 & H1 & H).
  apply bind_Ok in H as (td & s2 & Htd & H).
  apply bind_Ok in H as (ecs_cluster & s3 & H3 & H).
  apply bind_Ok in H as (svc & s4 & H4 & H).
  apply ret_Ok in H as [-> ->].
  apply bind_Ok in Htd as (td' & t1 & T1 & Htd).
  apply bind_Ok in Htd as (u2 & t2 & T2 & Htd).
  apply bind_Ok in Htd as (u3 & t3 & T3 & Htd).
  apply bind_Ok in Htd as (u4 & t4 & T4 & Htd).
  apply ret_Ok in Htd as [-> ->].
  apply bind_Ok in T4 as (spin & t5 & T5 & T6).
  pose proof (extends_by_nil s s eq_refl) as X0.
  destruct (extends_by_declare _ _ _ _ _ _ _ _ _ X0 H1) as (-> & X1 & D1 & G1).
  destruct (extends_by_declare _ _ _ _ _ _ _ _ _ X1 T1) as (-> & Y1 & E1 & F1).
  destruct (extends_by_mutate _ _ _ _ _ _ _ _ _ _ Y1 T2)
    as (n2 & Hf2 & Y2 & E2 & F2).
  injection Hf2 as <-.
  destruct (extends_by_mutate _ _ _ _ _ _ _ _ _ _ Y2 T3)
    as (n3 & Hf3 & Y3 & E3 & F3).
  injection Hf3 as <-.
  destruct (extends_by_declare _ _ _ _ _ _ _ _ _ Y3 T5) as (-> & Y5 & E5 & F5).
  destruct (extends_by_mutate _ _ _ _ _ _ _ _ _ _ Y5 T6)
    as (n6 & Hf6 & Y6 & E6 & F6).
  injection Hf6 as <-.
  destruct (extends_by_declare _ _ _ _ _ _ _ _ _ Y6 H3) as (-> & X3 & D3 & G3).
  destruct (extends_by_declare _ _ _ _ _ _ _ _ _ X3 H4) as (-> & X4 & D4 & G4).
  split; [reflexivity|]. split; [exact X4|]. split; congruence.
Qed.

Lemma Function_init_Ok E scope id_ ap mp var vpc s r s' :
  Function.__init__ E scope id_ ap mp var vpc s = Ok r s' ->
  r = {| Function.lambda_function :=
           child (child scope id_) "LambdaFunction" |}
  /\ extends_by s s' (function_nodes E scope id_ ap mp var vpc)
  /\ dependencies s' = dependencies s
  /\ grants s' = grants s.
Proof.
  intros H. unfold Function.__init__ in H.
  apply bind_Ok in H as (this & s1 & H1 & H).
  apply bind_Ok in H as (fn & s2 & H2 & H).
  apply ret_Ok in H as [-> ->].
  pose proof (extends_by_nil s s eq_refl) as X0.
  destruct (extends_by_declare _ _ _ _ _ _ _ _ _ X0 H1) as (-> & X1 & D1 & G1).
  destruct (extends_by_declare _ _ _ _ _ _ _ _ _ X1 H2) as (-> & X2 & D2 & G2).
  split; [reflexivity|]. split; [exact X2|]. split; congruence.
Qed.

Lemma Datastore_init_Ok E scope id_ vpc s r s' :
  Datastore.__init__ E scope id_ vpc s = Ok r s' ->
  r = {| Datastore.efs_file_system :=
           child (child scope id_) "EFSFileSystem";
         Datastore.efs_access_point :=
           child (child (child scope id_) "EFSFileSystem") "AccessPoint" |}
  /\ extends_by s s' (datastore_nodes scope id_ vpc)
  /\ dependencies s' = dependencies s
  /\ grants s' = grants s.
Proof.
  intros H. unfold Datastore.__init__ in H.
  apply bind_Ok in H as (this & s1 & H1 & H).
  apply bind_Ok in H as (fs & s2 & H2 & H).
  apply bind_Ok in H as (ap & s3 & H3 & H).
  apply ret_Ok in H as [-> ->].
  pose proof (extends_by_nil s s eq_refl) as X0.
  destruct (extends_by_declare _ _ _ _ _ _ _ _ _ X0 H1) as (-> & X1 & D1 & G1).
  destruct (extends_by_declare _ _ _ _ _ _ _ _ _ X1 H2) as (-> & X2 & D2 & G2).
  destruct (extends_by_declare _ _ _ _ _ _ _ _ _ X2 H3) as (-> & X3 & D3 & G3).
  split; [reflexivity|]. split; [exact X3|]. split; congruence.
Qed.



Lemma add_dependency_nodes E a b s u s' :
  add_dependency E a b s = Ok u s' ->
  nodes s' = nodes s
  /\ dependencies s' = (dependencies s ++ [(a, b)])%list
  /\ grants s' = grants s.
Proof.
  unfold add_dependency.
  destruct (negb (has_node a s)); [discriminate|].
  destruct (negb (has_node b s)); [discriminate|].
  intros H. apply submit_Ok in H. subst s'. repeat split.
Qed.

Lemma add_dependency_Raise E a b s e s' :
  add_dependency E a b s = Raise e s' -> s' = s.
Proof.
  unfold add_dependency. destruct (negb (has_node a s)).
  { intros H. injection H as _ <-. reflexivity. }
  destruct (negb (has_node b s)).
  { intros H. injection H as _ <-. reflexivity. }
  intros H. apply submit_Raise in H as [_ ->]. reflexivity.
Qed.

Lemma Compute_init_Ok E scope id_ ap fsid vpc s r s' :
  Compute.__init__ E scope id_ ap fsid vpc s = Ok r s' ->
  let this := child scope id_ in
  let vm := child (child this "Server") "EC2Instance" in
  let svc := child (child this "Container") "ECSFargateService" in
  let fn := child (child this "Function") "LambdaFunction" in
  r = {| Compute.ec2_instance := vm;
         Compute.ecs_fargate_service := svc;
         Compute.lambda_function := fn |}
  /\ extends_by s s' (compute_nodes E scope id_ ap fsid vpc)
  /\ dependencies s' = (dependencies s ++ [(svc, vm); (fn, vm)])%list
  /\ grants s' = grants s.
Proof.
  intros H this vm svc fn. unfold Compute.__init__ in H.
  apply bind_Ok in H as (this' & s1 & H1 & H).
  apply bind_Ok in H as (server & s2 & H2 & H).
  apply bind_Ok in H as (container & s3 & H3 & H).
  apply bind_Ok in H as (u4 & s4 & H4 & H).
  apply bind_Ok in H as (function & s5 & H5 & H).
  apply bind_Ok in H as (u6 & s6 & H6 & H).
  apply ret_Ok in H as [-> ->].
  pose proof (extends_by_nil s s eq_refl) as X0.
  destruct (extends_by_declare _ _ _ _ _ _ _ _ _ X0 H1) as (-> & X1 & D1 & G1).
  apply Server_init_Ok in H2 as (-> & X2 & D2 & G2).
  apply Container_init_Ok in H3 as (-> & X3 & D3 & G3).
  apply add_dependency_nodes in H4 as (N4 & D4 & G4).
  apply Function_init_Ok in H5 as (-> & X5 & D5 & G5).
  apply add_dependency_nodes in H6 as (N6 & D6 & G6).
  cbn [Server.ec2_instance Container.ecs_fargate_service
         Function.lambda_function] in *.
  split; [reflexivity|]. split; [|split].
  - pose proof (extends_by_trans _ _ _ _ _ X1 X2) as Y2.
    pose proof (extends_by_trans _ _ _ _ _ Y2 X3) as Y3.
    pose proof (extends_by_nodes _ _ _ _ Y3 N4) as Y4.
    pose proof (extends_by_trans _ _ _ _ _ Y4 X5) as Y5.
    pose proof (extends_by_nodes _ _ _ _ Y5 N6) as Y6.
    unfold compute_nodes. fold this.
    rewrite <- !app_assoc in Y6. exact Y6.
  - rewrite D6, D5, D4, D3, D2, D1, <- app_assoc. reflexivity.
  - congruence.
Qed.

Lemma allow_nodes E peer target port s u s' :
  allow E peer target port s = Ok u s' ->
  nodes s' = nodes s
  /\ dependencies s' = dependencies s
  /\ grants s' =
       (grants s ++ [{| grant_peer := peer; grant_target := target;
                        grant_port := port |}])%list
  /\ has_node peer s = true /\ has_node target s = true.
Proof.
  unfold allow.
  destruct (has_node peer s); [|discriminate].
  destruct (has_node target s); [|discriminate]. cbn [negb].
  intros H. apply submit_Ok in H. subst s'. repeat split.
Qed.

Lemma LoadBalancer_init_Ok E scope id_ vm svc fn vpc s r s' :
  LoadBalancer.__init__ E scope id_ vm svc fn vpc s = Ok r s' ->
  let alb := child (child scope id_) "ELBALB" in
  r = {| LoadBalancer.elb_alb := alb;
         LoadBalancer.endpoint := token alb "DNSName" |}
  /\ extends_by s s' (load_balancer_nodes E scope id_ vm svc fn vpc)
  /\ dependencies s' = dependencies s
  /\ grants s' =
       (grants s
        ++ [ {| grant_peer := alb;
                grant_target := vm;
                grant_port :=
                  Port TCP (str (SPIN_PORT (consts E)))
                    (SPIN_PORT (consts E)) (SPIN_PORT (consts E)) |} ])%list.
Proof.
  intros H alb.
  unfold LoadBalancer.__init__, LoadBalancer._create_ec2_target_group,
    LoadBalancer._create_ecs_target_group,
    LoadBalancer._create_lambda_target_group, LoadBalancer.add_listener,
    LoadBalancer.add_action, allow_to in H.
  apply bind_Ok in H as (this & s1 & H1 & H).
  apply bind_Ok in H as (alb' & s2 & H2 & H).
  apply bind_Ok in H as (g1 & s3 & Hg1 & H).
  apply bind_Ok in H as (g2 & s4 & Hg2 & H).
  apply bind_Ok in H as (g3 & s5 & Hg3 & H).
  apply bind_Ok in H as (listener & s6 & H6 & H).
  apply bind_Ok in H as (u7 & s7 & H7 & H).
  apply ret_Ok in H as [-> ->].
  apply bind_Ok in Hg1 as (ua & sa & Ha & Hg1).
  apply bind_Ok in Hg1 as (p1 & sb & Hb & Hg1).
  apply ret_Ok in Hg1 as [-> ->].
  apply bind_Ok in Hg2 as (p2 & sc & Hc & Hg2).
  apply ret_Ok in Hg2 as [-> ->].
  apply bind_Ok in Hg3 as (p3 & sd & Hd & Hg3).
  apply ret_Ok in Hg3 as [-> ->].
  cbn [LoadBalancer.this LoadBalancer._elb_alb] in *.
  pose proof (extends_by_nil s s eq_refl) as X0.
  destruct (extends_by_declare _ _ _ _ _ _ _ _ _ X0 H1) as (-> & X1 & D1 & G1).
  destruct (extends_by_declare _ _ _ _ _ _ _ _ _ X1 H2) as (-> & X2 & D2 & G2).
  apply allow_nodes in Ha as (Na & Da & Ga & _).
  pose proof (extends_by_nodes _ _ _ _ X2 Na) as Xa.
  destruct (extends_by_declare _ _ _ _ _ _ _ _ _ Xa Hb) as (-> & Xb & Db & Gb).
  destruct (extends_by_declare _ _ _ _ _ _ _ _ _ Xb Hc) as (-> & Xc & Dc & Gc).
  destruct (extends_by_declare _ _ _ _ _ _ _ _ _ Xc Hd) as (-> & Xd & Dd & Gd).
  destruct (extends_by_declare _ _ _ _ _ _ _ _ _ Xd H6) as (-> & X6 & D6 & G6).
  destruct (extends_by_mutate _ _ _ _ _ _ _ _ _ _ X6 H7)
    as (n7 & Hf7 & X7 & D7 & G7).
  injection Hf7 as <-. subst alb.
  split; [reflexivity|]. split; [exact X7|]. split; [congruence|].
  rewrite G7, G6, Gd, Gc, Gb, Ga, G2, G1. reflexivity.
Qed.

Lemma lookup_node_NoDup q n l :
  NoDup (map fst l) -> (q, n) ∈ l -> lookup_node q l = Some n.
Proof.
  induction l as [|[p m] l IH]; simpl; intros Hnd Hin.
  - apply elem_of_nil in Hin. destruct Hin.
  - apply NoDup_cons in Hnd as [Hp Hnd].
    apply elem_of_cons in Hin as [Heq | Hin].
    + injection Heq as -> ->. rewrite String.eqb_refl. reflexivity.
    + destruct (String.eqb q p) eqn:Hq; [|apply IH; assumption].
      apply String.eqb_eq in Hq. subst p. exfalso. apply Hp.
      apply (list_elem_of_fmap_2 fst) in Hin. exact Hin.
Qed.

(** A node a run has added is found at its path. *)
Lemma extends_by_elem s s' new q n :
  extends_by s s' new -> (q, n) ∈ new -> lookup_node q (nodes s') = Some n.
Proof.
  intros Hext Hin. destruct Hext as (N & D & F). rewrite N.
  rewrite lookup_node_app_r.
  - apply lookup_node_NoDup; assumption.
  - apply F. apply (list_elem_of_fmap_2 fst) in Hin. exact Hin.
Qed.

Lemma rule_targets_app s s' new :
  nodes s' = (nodes s ++ new)%list ->
  rule_targets s' = (rule_targets s ++ rule_targets (with_nodes new s))%list.
Proof.
  intros H. unfold rule_targets, listeners, select. cbn [nodes with_nodes].
  rewrite H, omap_app, map_app, concat_app. reflexivity.
Qed.

Lemma rule_targets_nodes s s' :
  nodes s' = nodes s -> rule_targets s' = rule_targets s.
Proof.
  intros H. unfold rule_targets, listeners, select. rewrite H. reflexivity.
Qed.

(** ** [allow_connections_from] as a loop *)

Lemma allow_connections_from_app E this xs ys s :
  Datastore.allow_connections_from E this (xs ++ ys) s =
  bind (Datastore.allow_connections_from E this xs)
    (fun _ => Datastore.allow_connections_from E this ys) s.
Proof.
  revert s. induction xs as [|x xs IH]; intros s; simpl.
  - reflexivity.
  - unfold bind.
    destruct (allow_default_port_from E _ x s) as [u s1|e s1];
      [|reflexivity].
    rewrite IH. reflexivity.
Qed.

Lemma allow_connections_from_Raise E this others :
  forall s e s',
    Datastore.allow_connections_from E this others s = Raise e s' ->
    exists k,
      (k < length others)%nat
      /\ grants s' =
           (grants s
            ++ map (default_port_grant (Datastore.efs_file_system this))
                 (take k others))%list
      /\ nodes s' = nodes s
      /\ dependencies s' = dependencies s.
Proof.
  induction others as [|other others IH]; intros s e s' H; simpl in H.
  - discriminate.
  - apply bind_Raise in H as [H | (u & s1 & H1 & H)].
    + unfold allow_default_port_from in H. apply allow_Raise in H. subst s'.
      exists 0%nat. simpl. rewrite app_nil_r.
      split; [lia|]. repeat split.
    + unfold allow_default_port_from in H1.
      apply allow_nodes in H1 as (N1 & D1 & G1 & _).
      apply IH in H as (k & Hk & G & N & D).
      exists (S k). simpl. split; [lia|].
      split; [|split; congruence].
      rewrite G, G1, <- app_assoc. reflexivity.
Qed.

(** ** The splitter's rule *)

Ltac no_rule_yet X :=
  let N := fresh "N" in
  destruct X as (N & _ & _);
  rewrite (rule_targets_app _ _ _ N); cbn; apply app_nil_r.

Lemma LoadBalancer_init_Raise E scope id_ vm svc fn vpc s e s' :
  LoadBalancer.__init__ E scope id_ vm svc fn vpc s = Raise e s' ->
  rule_targets s' = rule_targets s.
Proof.
  intros H.
  unfold LoadBalancer.__init__, LoadBalancer._create_ec2_target_group,
    LoadBalancer._create_ecs_target_group,
    LoadBalancer._create_lambda_target_group, LoadBalancer.add_listener,
    LoadBalancer.add_action, allow_to in H.
  cbn [LoadBalancer.this LoadBalancer._elb_alb] in H.
  pose proof (extends_by_nil s s eq_refl) as X0.
  apply bind_Raise in H as [H | (this & s1 & H1 & H)].
  { apply declare_Raise in H. subst s'. reflexivity. }
  destruct (extends_by_declare _ _ _ _ _ _ _ _ _ X0 H1) as (-> & X1 & _ & _).
  apply bind_Raise in H as [H | (alb & s2 & H2 & H)].
  { apply declare_Raise in H. subst s'. no_rule_yet X1. }
  destruct (extends_by_declare _ _ _ _ _ _ _ _ _ X1 H2) as (-> & X2 & _ & _).
  apply bind_Raise in H as [H | (g1 & s3 & Hg1 & H)].
  { apply bind_Raise in H as [H | (ua & sa & Ha & H)].
    { apply allow_Raise in H. subst s'. no_rule_yet X2. }
    apply allow_nodes in Ha as (Na & _).
    pose proof (extends_by_nodes _ _ _ _ X2 Na) as Xa.
    apply bind_Raise in H as [H | (p1 & sb & Hb & H)]; [|discriminate].
    apply declare_Raise in H. subst s'. no_rule_yet Xa. }
  apply bind_Ok in Hg1 as (ua & sa & Ha & Hg1).
  apply bind_Ok in Hg1 as (p1 & sb & Hb & Hg1).
  apply ret_Ok in Hg1 as [-> ->].
  apply allow_nodes in Ha as (Na & _).
  pose proof (extends_by_nodes _ _ _ _ X2 Na) as Xa.
  destruct (extends_by_declare _ _ _ _ _ _ _ _ _ Xa Hb) as (-> & Xb & _ & _).
  apply bind_Raise in H as [H | (g2 & s4 & Hg2 & H)].
  { apply bind_Raise in H as [H | (p2 & sc & Hc & H)]; [|discriminate].
    apply declare_Raise in H. subst s'. no_rule_yet Xb. }
  apply bind_Ok in Hg2 as (p2 & sc & Hc & Hg2).
  apply ret_Ok in Hg2 as [-> ->].
  destruct (extends_by_declare _ _ _ _ _ _ _ _ _ Xb Hc) as (-> & Xc & _ & _).
  apply bind_Raise in H as [H | (g3 & s5 & Hg3 & H)].
  { apply bind_Raise in H as [H | (p3 & sd & Hd & H)]; [|discriminate].
    apply declare_Raise in H. subst s'. no_rule_yet Xc. }
  apply bind_Ok in Hg3 as (p3 & sd & Hd & Hg3).
  apply ret_Ok in Hg3 as [-> ->].
  destruct (extends_by_declare _ _ _ _ _ _ _ _ _ Xc Hd) as (-> & Xd & _ & _).
  apply bind_Raise in H as [H | (listener & s6 & H6 & H)].
  { apply declare_Raise in H. subst s'. no_rule_yet Xd. }
  destruct (extends_by_declare _ _ _ _ _ _ _ _ _ Xd H6) as (-> & X6 & _ & _).
  apply bind_Raise in H as [H | (u7 & s7 & H7 & H)]; [|discriminate].
  apply mutate_Raise in H. subst s'. no_rule_yet X6.
Qed.

(** X5.  [_add_user_data] appends: run on a store whose instance already
    has commands and policies, it leaves those in place, adds the bootstrap
    commands after the commands that are there, and changes no other node,
    no dependency and no grant. *)
Theorem X5_add_user_data_appends E this ap fs mp s u s' :
  Server._add_user_data E this ap fs mp s = Ok u s' ->
  exists i,
    lookup_node (Server.ec2_instance this) (nodes s) = Some (Instance i)
    /\ lookup_node (Server.ec2_instance this) (nodes s') =
         Some (Instance
                 (instance_with i (role_managed_policies i)
                    (user_data i ++ bootstrap_commands E ap fs mp)))
    /\ same_elsewhere (Server.ec2_instance this) s s'
    /\ dependencies s' = dependencies s
    /\ grants s' = grants s.
Proof.
  intros H. apply add_user_data_Ok in H as (i & Hi & N & D & G).
  exists i. split; [exact Hi|]. split; [|split; [|split; assumption]].
  - rewrite N. apply lookup_replace_eq. rewrite Hi. eexists; reflexivity.
  - eapply same_elsewhere_replace, N.
Qed.

Lemma X5_add_user_data_appends_witness :
  exists i s',
    Server._add_user_data test_env
      {| Server.ec2_instance := "Server/EC2Instance" |}
      "ap-2" "fs-2" "/mnt/other" server_store = Ok tt s'
    /\ lookup_node "Server/EC2Instance" (nodes s') = Some (Instance i)
    /\ user_data i =
         (bootstrap_commands test_env "ap-1" "fs-1" "/mnt/app"
          ++ bootstrap_commands test_env "ap-2" "fs-2" "/mnt/other")%list
    /\ role_managed_policies i = instance_policies.
Proof.
  assert (Hrun :
    Server._add_user_data test_env
      {| Server.ec2_instance := "Server/EC2Instance" |}
      "ap-2" "fs-2" "/mnt/other" server_store
    = Ok tt (state_of
               (Server._add_user_data test_env
                  {| Server.ec2_instance := "Server/EC2Instance" |}
                  "ap-2" "fs-2" "/mnt/other" server_store)))
    by (vm_compute; reflexivity).
  destruct (X5_add_user_data_appends _ _ _ _ _ _ _ _ Hrun)
    as (i & Hi & Hi' & _).
  vm_compute in Hi. injection Hi as <-.
  eexists _, _. split; [exact Hrun|]. split; [exact Hi'|].
  split; vm_compute; reflexivity.
Defined.

(** X6.  [_add_permissions] and [_add_user_data] commute: whichever runs
    first on an instance, the construct tree, the dependencies and the
    grants come out the same. *)
Theorem X6_permissions_and_user_data_commute
  E E' this ap fs mp s u1 a u2 b u3 c u4 d :
  consts E = consts E' ->
  Server._add_permissions E this s = Ok u1 a ->
  Server._add_user_data E this ap fs mp a = Ok u2 b ->
  Server._add_user_data E' this ap fs mp s = Ok u3 c ->
  Server._add_permissions E' this c = Ok u4 d ->
  nodes b = nodes d
  /\ dependencies b = dependencies d
  /\ grants b = grants d.
Proof.
  intros HE H1 H2 H3 H4.
  apply add_permissions_Ok in H1 as (i & Hi & N1 & D1 & G1).
  apply add_user_data_Ok in H2 as (i2 & Hi2 & N2 & D2 & G2).
  apply add_user_data_Ok in H3 as (i3 & Hi3 & N3 & D3 & G3).
  apply add_permissions_Ok in H4 as (i4 & Hi4 & N4 & D4 & G4).
  assert (Hsome : is_Some (lookup_node (Server.ec2_instance this) (nodes s)))
    by (rewrite Hi; eexists; reflexivity).
  rewrite N1, lookup_replace_eq in Hi2 by exact Hsome. injection Hi2 as <-.
  rewrite Hi in Hi3. injection Hi3 as <-.
  rewrite N3, lookup_replace_eq in Hi4 by exact Hsome. injection Hi4 as <-.
  split; [|split; congruence].
  rewrite N2, N1, N4, N3, !replace_replace.
  rewrite (bootstrap_commands_consts E E' ap fs mp HE). reflexivity.
Qed.

Lemma X6_permissions_and_user_data_commute_witness :
  let this := {| Server.ec2_instance := "EC2Instance" |} in
  let a := state_of (Server._add_permissions test_env this
                       bare_instance_store) in
  let b := state_of (Server._add_user_data test_env this "ap-1" "fs-1"
                       "/mnt/app" a) in
  let c := state_of (Server._add_user_data test_env this "ap-1" "fs-1"
                       "/mnt/app" bare_instance_store) in
  let d := state_of (Server._add_permissions test_env this c) in
  nodes b = nodes d /\ dependencies b = dependencies d /\ grants b = grants d.
Proof.
  intros this a b c d.
  apply (X6_permissions_and_user_data_commute test_env test_env this
           "ap-1" "fs-1" "/mnt/app" bare_instance_store tt a tt b tt c tt d).
  - reflexivity.
  - vm_compute. reflexivity.
  - vm_compute. reflexivity.
  - vm_compute. reflexivity.
  - vm_compute. reflexivity.
Defined.

(** X15.  From any store and for any arguments, [Server.__init__] adds two
    nodes, the construct and one instance.  The instance is a [t3.micro] in
    a public subnet of the given network whose role has the session policy
    and then the file-system policy and whose commands are the bootstrap
    commands for the given access point, file system and mount path.  Every
    node that was there is still there unchanged, and no dependency or
    grant is added. *)
Theorem X15_server_adds_one_instance E scope id_ ap fs mp vpc s r s' :
  Server.__init__ E scope id_ ap fs mp vpc s = Ok r s' ->
  lookup_node (Server.ec2_instance r) (nodes s) = None
  /\ lookup_node (Server.ec2_instance r) (nodes s') =
       Some (Instance
               {| instance_type := "t3.micro";
                  machine_image :=
                    "/aws/service/canonical/ubuntu/server/20.04/stable/current/amd64/hvm/ebs-gp2/ami-id";
                  instance_vpc := vpc;
                  vpc_subnets := PUBLIC;
                  role_managed_policies :=
                    [ "AmazonSSMManagedInstanceCore";
                      "AmazonElasticFileSystemClientReadWriteAccess" ];
                  user_data := bootstrap_commands E ap fs mp |})
  /\ keeps_nodes s s'
  /\ length (nodes s') = (length (nodes s) + 2)%nat
  /\ dependencies s' = dependencies s
  /\ grants s' = grants s.
Proof.
  intros H. apply Server_init_Ok in H as (-> & X & D & G).
  cbn [Server.ec2_instance].
  split; [|split; [|split; [|split; [|split; assumption]]]].
  - destruct X as (_ & _ & F). apply F. unfold server_nodes. cbn [map fst].
    apply list_elem_of_further, list_elem_of_here.
  - eapply extends_by_elem; [exact X|]. unfold server_nodes.
    apply list_elem_of_further, list_elem_of_here.
  - eapply extends_by_keeps, X.
  - destruct X as (N & _ & _). rewrite N, length_app. reflexivity.
Qed.

Lemma X15_server_adds_one_instance_witness :
  lookup_node "Server/EC2Instance" (nodes (empty_stack "Backend")) = None
  /\ keeps_nodes (empty_stack "Backend") server_store
  /\ length (nodes server_store) = 2%nat.
Proof.
  destruct (X15_server_adds_one_instance test_env EmptyString "Server" "ap-1"
              "fs-1" "/mnt/app" "VPC" (empty_stack "Backend")
              {| Server.ec2_instance := "Server/EC2Instance" |} server_store)
    as (H1 & _ & H3 & H4 & _).
  - vm_compute. reflexivity.
  - split; [exact H1|]. split; [exact H3 | exact H4].
Defined.

(** X7.  From any store and for any arguments, the service that
    [Container.__init__] returns runs a task definition with one volume,
    authorized through the given access point on the given file system,
    and one container of that task definition.  The container mounts a
    volume that the task definition has, at the given mount path, and its
    environment binds the given variable name to that same path and binds
    nothing else.  Every node that was there is still there unchanged, and
    no dependency or grant is added. *)
Theorem X7_container_mounts_its_volume E scope id_ ap fs mp var vpc s r s' :
  Container.__init__ E scope id_ ap fs mp var vpc s = Ok r s' ->
  exists v t cd c,
    lookup_node (Container.ecs_fargate_service r) (nodes s') =
      Some (FargateService v)
    /\ lookup_node (task_definition v) (nodes s') =
         Some (FargateTaskDefinition t)
    /\ lookup_node cd (nodes s') = Some (ContainerDefinition c)
    /\ container_task_definition c = task_definition v
    /\ map (fun x =>
              (access_point_id (authorization_config
                                  (efs_volume_configuration x)),
               file_system_id (efs_volume_configuration x)))
         (volumes t) = [(ap, fs)]
    /\ Forall (fun m => source_volume m ∈ map volume_name (volumes t))
         (mount_points c)
    /\ map container_path (mount_points c) = [mp]
    /\ (forall k,
          container_environment c !! k
          = if decide (k = var) then Some mp else None)
    /\ keeps_nodes s s'
    /\ dependencies s' = dependencies s
    /\ grants s' = grants s.
Proof.
  intros H. apply Container_init_Ok in H as (-> & X & D & G).
  cbn [Container.ecs_fargate_service].
  eexists _, _, _, _.
  split.
  { eapply extends_by_elem; [exact X|]. unfold container_nodes.
    do 4 apply list_elem_of_further. apply list_elem_of_here. }
  cbn [task_definition].
  split.
  { eapply extends_by_elem; [exact X|]. unfold container_nodes.
    apply list_elem_of_further, list_elem_of_here. }
  split.
  { eapply extends_by_elem; [exact X|]. unfold container_nodes.
    do 2 apply list_elem_of_further. apply list_elem_of_here. }
  cbn.
  split; [reflexivity|]. split; [reflexivity|].
  split.
  { constructor; [|constructor]. apply list_elem_of_here. }
  split; [reflexivity|].
  split.
  { intros k. destruct (decide (k = var)) as [->|Hne].
    - apply lookup_singleton_eq.
    - apply lookup_singleton_ne. congruence. }
  split; [eapply extends_by_keeps, X|]. split; assumption.
Qed.

Lemma X7_container_mounts_its_volume_witness :
  let s' :=
    state_of (Container.__init__ test_env EmptyString "Container" "ap-1"
                "fs-1" "/mnt/app" "EFS_MOUNT_PATH" "VPC"
                (empty_stack "Backend")) in
  exists c,
    lookup_node "Container/ECSFargateTaskDefinition/Spin" (nodes s') =
      Some (ContainerDefinition c)
    /\ container_environment c !! "EFS_MOUNT_PATH" = Some "/mnt/app"
    /\ container_environment c !! "PATH" = None
    /\ map container_path (mount_points c) = ["/mnt/app"].
Proof.
  intros s'.
  assert (Hrun :
    Container.__init__ test_env EmptyString "Container" "ap-1" "fs-1"
      "/mnt/app" "EFS_MOUNT_PATH" "VPC" (empty_stack "Backend")
    = Ok {| Container.ecs_fargate_service := "Container/ECSFargateService" |}
         s')
    by (vm_compute; reflexivity).
  destruct (X7_container_mounts_its_volume _ _ _ _ _ _ _ _ _ _ _ Hrun)
    as (v & t & cd & c & _).
  eexists. split; [vm_compute; reflexivity|].
  split; [vm_compute; reflexivity|].
  split; vm_compute; reflexivity.
Defined.



(** X9.  Opening the storage to a list of principals that is two lists put
    together is opening it to the first list and then, if that went
    through, to the second; with no principal at all nothing happens. *)
Theorem X9_allow_connections_from_in_two_calls E this xs ys s :
  Datastore.allow_connections_from E this (xs ++ ys) s =
  bind (Datastore.allow_connections_from E this xs)
    (fun _ => Datastore.allow_connections_from E this ys) s
  /\ Datastore.allow_connections_from E this [] s = Ok tt s.
Proof. split; [apply allow_connections_from_app | reflexivity]. Qed.

(** X10.  [allow_connections_from] is not all or nothing: when it raises,
    the principals before the one it raised on have their grant, in order,
    the one it raised on and those after it have none, and nothing else in
    the store has changed. *)
Theorem X10_allow_connections_from_stops_midway E this others s e s' :
  Datastore.allow_connections_from E this others s = Raise e s' ->
  exists k,
    (k < length others)%nat
    /\ grants s' =
         (grants s
          ++ map (default_port_grant (Datastore.efs_file_system this))
               (take k others))%list
    /\ nodes s' = nodes s
    /\ dependencies s' = dependencies s.
Proof. apply allow_connections_from_Raise. Qed.

Lemma X10_allow_connections_from_stops_midway_witness :
  let this :=
    {| Datastore.efs_file_system := "Datastore/EFSFileSystem";
       Datastore.efs_access_point := "Datastore/EFSFileSystem/AccessPoint" |}
  in
  let others :=
    [ "Compute/Server/EC2Instance";
      "Compute/Container/ECSFargateService";
      "Compute/Function/LambdaFunction" ] in
  let s' :=
    state_of (Datastore.allow_connections_from env_no_function_grant this
                others before_authorization) in
  grants s' =
    map (default_port_grant "Datastore/EFSFileSystem") (take 2 others).
Proof.
  intros this others s'.
  destruct (X10_allow_connections_from_stops_midway env_no_function_grant
              this others before_authorization
              (Rejected (OpGrant "Compute/Function/LambdaFunction"
                           "Datastore/EFSFileSystem")) s')
    as (k & _ & _).
  - vm_compute. reflexivity.
  - vm_compute. reflexivity.
Defined.

(** X11.  The splitter's rule is installed whole or not at all.  From any
    store and for any arguments, a [LoadBalancer.__init__] that goes
    through adds one rule over its three target groups, instance, service
    and function in that order, each with weight 1, and leaves every node
    that was there unchanged; one that raises leaves the rules of the store
    as they were. *)
Theorem X11_rule_whole_or_absent E scope id_ vm svc fn vpc s :
  match LoadBalancer.__init__ E scope id_ vm svc fn vpc s with
  | Ok r s' =>
      let this := child scope id_ in
      rule_targets s' =
        (rule_targets s
         ++ [ {| target_group :=
                   child this "ELBApplicationTargetGroupEC2Instance";
                 weight := 1 |};
              {| target_group :=
                   child this "ELBApplicationTargetGroupECSFargateService";
                 weight := 1 |};
              {| target_group :=
                   child this "ELBApplicationTargetGroupLambdaFunction";
                 weight := 1 |} ])%list
      /\ keeps_nodes s s'
  | Raise e s' => rule_targets s' = rule_targets s
  end.
Proof.
  destruct (LoadBalancer.__init__ E scope id_ vm svc fn vpc s)
    as [r s'|e s'] eqn:H.
  - intros this.
    apply LoadBalancer_init_Ok in H as (_ & X & _ & _).
    split; [|eapply extends_by_keeps, X].
    destruct X as (N & _ & _). rewrite (rule_targets_app _ _ _ N).
    reflexivity.
  - eapply LoadBalancer_init_Raise, H.
Qed.



(** X13.  From any store, [Datastore.__init__] adds a file system with the
    destructive removal policy in the given network and one access point,
    on that file system.  It opens the storage to nobody: no grant is
    added, and none is until [allow_connections_from] is called.  Every
    node that was there is still there unchanged. *)
Theorem X13_datastore_starts_closed E scope id_ vpc s r s' :
  Datastore.__init__ E scope id_ vpc s = Ok r s' ->
  lookup_node (Datastore.efs_file_system r) (nodes s') =
    Some (FileSystem DESTROY vpc)
  /\ lookup_node (Datastore.efs_access_point r) (nodes s') =
       Some (AccessPoint (Datastore.efs_file_system r))
  /\ Datastore.efs_access_point r <> Datastore.efs_file_system r
  /\ access_points s' =
       (access_points s
        ++ [(Datastore.efs_access_point r, Datastore.efs_file_system r)])%list
  /\ keeps_nodes s s'
  /\ grants s' = grants s
  /\ dependencies s' = dependencies s.
Proof.
  intros H. apply Datastore_init_Ok in H as (-> & X & D & G).
  cbn [Datastore.efs_file_system Datastore.efs_access_point].
  split.
  { eapply extends_by_elem; [exact X|]. unfold datastore_nodes.
    apply list_elem_of_further, list_elem_of_here. }
  split.
  { eapply extends_by_elem; [exact X|]. unfold datastore_nodes.
    do 2 apply list_elem_of_further. apply list_elem_of_here. }
  split.
  { destruct X as (_ & Hnd & _). unfold datastore_nodes in Hnd.
    cbn [map fst] in Hnd. intros Heq.
    apply NoDup_cons in Hnd as [_ Hnd]. apply NoDup_cons in Hnd as [Hnd _].
    apply Hnd. rewrite Heq. apply list_elem_of_here. }
  split.
  { destruct X as (N & _ & _). unfold access_points, select.
    rewrite N, omap_app. reflexivity. }
  split; [eapply extends_by_keeps, X|]. split; assumption.
Qed.

Lemma X13_datastore_starts_closed_witness :
  let s' :=
    state_of (Datastore.__init__ test_env EmptyString "Datastore" "VPC"
                (empty_stack "Backend")) in
  access_points s' =
    [("Datastore/EFSFileSystem/AccessPoint", "Datastore/EFSFileSystem")]
  /\ grants s' = [].
Proof.
  intros s'.
  destruct (X13_datastore_starts_closed test_env EmptyString "Datastore"
              "VPC" (empty_stack "Backend")
              {| Datastore.efs_file_system := "Datastore/EFSFileSystem";
                 Datastore.efs_access_point :=
                   "Datastore/EFSFileSystem/AccessPoint" |} s')
    as (_ & _ & _ & Hap & _ & Hg & _).
  - vm_compute. reflexivity.
  - split; [exact Hap | exact Hg].
Defined.


